(** * VR collaboration room: the room-state core of [main.py]

    A shallow embedding of [VRPosition], [Participant], [VRGesture] and of the
    state-changing methods of [EnhancedMultilingualVRRoom], followed by the
    properties of the room session proved about them.

    Conventions of the embedding.
    - A Python [float] is an IEEE 754 binary64 value ([spec_float] at
      precision 53, maximal exponent 1024); an [int] argument is read as
      the float of the same value.
    - [datetime.now()] is an argument [now] of every operation.
    - A method is a function from the room to an [Outcome]: the result or
      the exception raised, the room as the call leaves it (what was
      written before an exception stays written) and the effects sent out
      ([socketio.emit], the timer started, the file written), in order.
    - Console output, the localized texts and the country flags are left
      out; they never feed back into the room. *)

From Stdlib Require Import ZArith Bool List String Ascii Lia PeanoNat.
From Stdlib Require Import Floats.SpecFloat.
From Stdlib Require Import Numbers.DecimalString.
Import ListNotations.

(* ================================================================= *)
(** * Python results and exceptions *)

Inductive PyExc : Set :=
| OverflowError
| ValueError
| TypeError
| AttributeError
| KeyError
| IndexError.

Inductive PyResult (A : Type) : Type :=
| Ok (a : A)
| Raise (e : PyExc).

Arguments Ok {A} a.
Arguments Raise {A} e.

Definition rbind {A B : Type} (m : PyResult A) (k : A -> PyResult B) : PyResult B :=
  match m with
  | Ok a => k a
  | Raise e => Raise e
  end.

Declare Scope result_scope.
Delimit Scope result_scope with result.
Notation "'let?' x ':=' m 'in' k" := (rbind m (fun x => k))
  (at level 10, x name, m at level 100, k at level 200) : result_scope.

(* ================================================================= *)
(** * Python floats *)

Definition float : Set := spec_float.

Module PyFloat.

Definition prec : Z := 53.
Definition emax : Z := 1024.

(** The float of an integer literal, [float(z)] rounded to nearest. *)
Definition of_Z (z : Z) : float := binary_normalize prec emax z 0 false.

Definition zero : float := S754_zero false.
Definition one : float := Eval compute in of_Z 1.
Definition three : float := Eval compute in of_Z 3.
Definition two : float := Eval compute in of_Z 2.
Definition five : float := Eval compute in of_Z 5.
Definition ten : float := Eval compute in of_Z 10.

(** [a - b], [a + b]: no exception, overflow gives an infinity. *)
Definition sub (a b : float) : float := SFsub prec emax a b.
Definition add (a b : float) : float := SFadd prec emax a b.

(** [a < b] and [a == b]; both are [False] on a NaN. *)
Definition ltb (a b : float) : bool := SFltb a b.
Definition eqb (a b : float) : bool := SFeqb a b.


(** [iv ** 2], following [float_pow] of CPython at [iw = 2.0]: a NaN is
    returned as it is, an infinity gives [fabs(iv)], a zero gives [0.0];
    a negative [iv] is replaced by [-iv] (the exponent is an even
    integer); [1.0] is returned for [1.0]; otherwise the C library's
    [pow(iv, 2.0)] is called, taken here as the correctly rounded
    product, and an infinite result raises [OverflowError]. *)
Definition pow_2 (iv : float) : PyResult float :=
  match iv with
  | S754_nan => Ok iv
  | S754_infinity _ => Ok (SFabs iv)
  | S754_zero _ => Ok zero
  | S754_finite s _ _ =>
      let iv := if s then SFopp iv else iv in
      if eqb iv one then Ok one
      else
        let ix := SFmul prec emax iv iv in
        match ix with
        | S754_infinity _ => Raise OverflowError
        | _ => Ok ix
        end
  end.

(** [iv ** 0.5], following [float_pow] at [iw = 0.5]: a NaN is returned
    as it is, an infinity of either sign gives [inf], a zero gives [0.0];
    a negative [iv] yields a complex number, on which the comparison
    with a float that follows at both call sites raises [TypeError]
    (never taken from [distance_to], see [distance_to_not_complex]);
    otherwise [pow(iv, 0.5)], taken as the correctly rounded square
    root. *)
Definition pow_half (iv : float) : PyResult float :=
  match iv with
  | S754_nan => Ok iv
  | S754_infinity _ => Ok (SFabs iv)
  | S754_zero _ => Ok zero
  | S754_finite true _ _ => Raise TypeError
  | S754_finite false _ _ =>
      if eqb iv one then Ok one
      else
        let ix := SFsqrt prec emax iv in
        match ix with
        | S754_infinity _ => Raise OverflowError
        | _ => Ok ix
        end
  end.

(** [int(a)], kept only for the exception it may raise. *)
Definition to_int_check (a : float) : PyResult unit :=
  match a with
  | S754_nan => Raise ValueError
  | S754_infinity _ => Raise OverflowError
  | _ => Ok tt
  end.

End PyFloat.

(* ================================================================= *)
(** * Geometry: [VRPosition] *)

Record VRPosition := mkVRPosition {
  x : float;
  y : float;
  z : float;
  rotation_x : float;
  rotation_y : float;
  rotation_z : float
}.

(** [VRPosition(x, y, z)] with the default rotation [0.0]. *)
Definition VRPosition3 (x y z : float) : VRPosition :=
  mkVRPosition x y z PyFloat.zero PyFloat.zero PyFloat.zero.

Open Scope result_scope.

(** [((self.x - other.x)**2 + (self.y - other.y)**2 + (self.z - other.z)**2)**0.5],
    evaluated left to right. *)
Definition distance_to (self other : VRPosition) : PyResult float :=
  let? sx := PyFloat.pow_2 (PyFloat.sub (x self) (x other)) in
  let? sy := PyFloat.pow_2 (PyFloat.sub (y self) (y other)) in
  let? sz := PyFloat.pow_2 (PyFloat.sub (z self) (z other)) in
  PyFloat.pow_half (PyFloat.add (PyFloat.add sx sy) sz).


(* ================================================================= *)
(** * Python strings

    A [str] is its UTF-8 bytes.  [lower] folds the ASCII capitals only;
    the denylist below is plain ASCII, and no byte of a multi-byte UTF-8
    sequence is an ASCII byte, so a denylist phrase occurs in the folded
    bytes exactly when it occurs in the folded text. *)

Module PyStr.

Open Scope string_scope.

Definition lower_ascii (c : ascii) : ascii :=
  let n := nat_of_ascii c in
  if (65 <=? n)%nat && (n <=? 90)%nat then ascii_of_nat (n + 32) else c.

(** [s.lower()] *)
Fixpoint lower (s : string) : string :=
  match s with
  | EmptyString => EmptyString
  | String c s' => String (lower_ascii c) (lower s')
  end.

(** [w in m]: [w] occurs in [m] as a contiguous run. *)
Fixpoint contains (w m : string) : bool :=
  String.prefix w m
  || match m with
     | EmptyString => false
     | String _ m' => contains w m'
     end.

(** [s[0]] *)
Definition first (s : string) : PyResult ascii :=
  match s with
  | EmptyString => Raise IndexError
  | String c _ => Ok c
  end.

(** [str(n)] for a natural number *)
Definition of_nat (n : nat) : string := NilZero.string_of_uint (Nat.to_uint n).

End PyStr.

(* ================================================================= *)
(** * Free-form values and dictionaries *)

#[warnings="-register-all"] Inductive PyVal : Set :=
| VNone
| VBool (b : bool)
| VStr (s : string)
| VFloat (f : float)
| VDict (items : list (string * PyVal)).

(** A [dict] with string keys, in insertion order; assigning to a key that
    is present keeps its place. *)
Definition Dict (V : Type) : Type := list (string * V).

Fixpoint dict_get {V : Type} (k : string) (d : Dict V) : option V :=
  match d with
  | [] => None
  | (k', v) :: d' => if String.eqb k' k then Some v else dict_get k d'
  end.

Fixpoint dict_set {V : Type} (k : string) (v : V) (d : Dict V) : Dict V :=
  match d with
  | [] => [(k, v)]
  | (k', v') :: d' =>
      if String.eqb k' k then (k, v) :: d' else (k', v') :: dict_set k v d'
  end.

(** [k in d] *)
Definition dict_mem {V : Type} (k : string) (d : Dict V) : bool :=
  match dict_get k d with
  | Some _ => true
  | None => false
  end.

(** [d.values()] *)
Definition dict_values {V : Type} (d : Dict V) : list V := map snd d.

(** [l[-n:]] for a positive [n] *)
Definition last_n {A : Type} (n : nat) (l : list A) : list A :=
  skipn (List.length l - n) l.

(* ================================================================= *)
(** * The data model *)

Definition Time : Set := nat.

Inductive Language : Set :=
| ENGLISH | TURKISH | SPANISH | FRENCH | GERMAN | ITALIAN | CHINESE.

Definition Language_value (l : Language) : string :=
  match l with
  | ENGLISH => "en" | TURKISH => "tr" | SPANISH => "es" | FRENCH => "fr"
  | GERMAN => "de" | ITALIAN => "it" | CHINESE => "zh"
  end.

Inductive ModerationAction : Set :=
| NONE | WARNING | MUTE | TIMEOUT | REMOVE.

Definition ModerationAction_value (a : ModerationAction) : string :=
  match a with
  | NONE => "none" | WARNING => "warning" | MUTE => "mute"
  | TIMEOUT => "timeout" | REMOVE => "remove"
  end.

Record VRGesture := mkVRGesture {
  gesture_type : string;
  hand : string;
  intensity : float;
  duration : float;
  timestamp : Time
}.

(** [obj] is the identity of the Python object: [add_participant] builds a
    new object on every call, and the timer started by [perform_gesture]
    keeps a reference to the object it was started for. *)
Record Participant := mkParticipant {
  user_id : string;
  name : string;
  preferred_language : Language;
  vr_position : VRPosition;
  is_muted : bool;
  is_speaking : bool;
  join_time : Time;
  avatar_id : string;
  recent_gestures : list VRGesture;
  obj : nat
}.

(** An entry of [session_transcript]:
    [{"timestamp": ..., "type": ..., "data": ...}] *)
Record TranscriptEntry := mkEntry {
  entry_timestamp : Time;
  entry_type : string;
  entry_data : Dict PyVal
}.

(** An entry of [moderation_log] *)
Record ModerationRecord := mkModeration {
  log_timestamp : Time;
  log_user_id : PyVal;
  log_message : string;
  log_action : string;
  log_reason : string
}.

(** The fields of [EnhancedMultilingualVRRoom] that its methods read or
    write ([messages], [gesture_recognition] and [spatial_audio] are never
    used; the tables of texts and the web server are left out).
    [next_obj] numbers the participant objects created so far. *)
Record Room := mkRoom {
  room_id : string;
  room_name : string;
  participants : Dict Participant;
  gestures : list VRGesture;
  is_active : bool;
  start_time : option Time;
  ai_moderation_enabled : bool;
  ai_note_taking_enabled : bool;
  video_recording_enabled : bool;
  session_transcript : list TranscriptEntry;
  moderation_log : list ModerationRecord;
  recording_start_time : option Time;
  project_context : string;
  proximity_chat_enabled : bool;
  next_obj : nat
}.

(** [EnhancedMultilingualVRRoom(room_id, room_name)] *)
Definition init (room_id room_name : string) : Room :=
  {| room_id := room_id;
     room_name := room_name;
     participants := [];
     gestures := [];
     is_active := false;
     start_time := None;
     ai_moderation_enabled := true;
     ai_note_taking_enabled := true;
     video_recording_enabled := false;
     session_transcript := [];
     moderation_log := [];
     recording_start_time := None;
     project_context := "Global Localization Project Kickoff";
     proximity_chat_enabled := true;
     next_obj := 0 |}.

(** ** Assignments to the attributes of the room *)

Definition set_participants (v : Dict Participant) (r : Room) : Room :=
  mkRoom (room_id r) (room_name r) v (gestures r) (is_active r) (start_time r)
    (ai_moderation_enabled r) (ai_note_taking_enabled r) (video_recording_enabled r)
    (session_transcript r) (moderation_log r) (recording_start_time r)
    (project_context r) (proximity_chat_enabled r) (next_obj r).

Definition set_gestures (v : list VRGesture) (r : Room) : Room :=
  mkRoom (room_id r) (room_name r) (participants r) v (is_active r) (start_time r)
    (ai_moderation_enabled r) (ai_note_taking_enabled r) (video_recording_enabled r)
    (session_transcript r) (moderation_log r) (recording_start_time r)
    (project_context r) (proximity_chat_enabled r) (next_obj r).

Definition set_is_active (v : bool) (r : Room) : Room :=
  mkRoom (room_id r) (room_name r) (participants r) (gestures r) v (start_time r)
    (ai_moderation_enabled r) (ai_note_taking_enabled r) (video_recording_enabled r)
    (session_transcript r) (moderation_log r) (recording_start_time r)
    (project_context r) (proximity_chat_enabled r) (next_obj r).

Definition set_start_time (v : option Time) (r : Room) : Room :=
  mkRoom (room_id r) (room_name r) (participants r) (gestures r) (is_active r) v
    (ai_moderation_enabled r) (ai_note_taking_enabled r) (video_recording_enabled r)
    (session_transcript r) (moderation_log r) (recording_start_time r)
    (project_context r) (proximity_chat_enabled r) (next_obj r).

Definition set_video_recording_enabled (v : bool) (r : Room) : Room :=
  mkRoom (room_id r) (room_name r) (participants r) (gestures r) (is_active r)
    (start_time r) (ai_moderation_enabled r) (ai_note_taking_enabled r) v
    (session_transcript r) (moderation_log r) (recording_start_time r)
    (project_context r) (proximity_chat_enabled r) (next_obj r).

Definition set_session_transcript (v : list TranscriptEntry) (r : Room) : Room :=
  mkRoom (room_id r) (room_name r) (participants r) (gestures r) (is_active r)
    (start_time r) (ai_moderation_enabled r) (ai_note_taking_enabled r)
    (video_recording_enabled r) v (moderation_log r) (recording_start_time r)
    (project_context r) (proximity_chat_enabled r) (next_obj r).

Definition set_moderation_log (v : list ModerationRecord) (r : Room) : Room :=
  mkRoom (room_id r) (room_name r) (participants r) (gestures r) (is_active r)
    (start_time r) (ai_moderation_enabled r) (ai_note_taking_enabled r)
    (video_recording_enabled r) (session_transcript r) v (recording_start_time r)
    (project_context r) (proximity_chat_enabled r) (next_obj r).

Definition set_recording_start_time (v : option Time) (r : Room) : Room :=
  mkRoom (room_id r) (room_name r) (participants r) (gestures r) (is_active r)
    (start_time r) (ai_moderation_enabled r) (ai_note_taking_enabled r)
    (video_recording_enabled r) (session_transcript r) (moderation_log r) v
    (project_context r) (proximity_chat_enabled r) (next_obj r).

Definition set_next_obj (v : nat) (r : Room) : Room :=
  mkRoom (room_id r) (room_name r) (participants r) (gestures r) (is_active r)
    (start_time r) (ai_moderation_enabled r) (ai_note_taking_enabled r)
    (video_recording_enabled r) (session_transcript r) (moderation_log r)
    (recording_start_time r) (project_context r) (proximity_chat_enabled r) v.

(** ** Assignments to the attributes of a participant *)

Definition set_vr_position (v : VRPosition) (p : Participant) : Participant :=
  mkParticipant (user_id p) (name p) (preferred_language p) v (is_muted p)
    (is_speaking p) (join_time p) (avatar_id p) (recent_gestures p) (obj p).

Definition set_is_speaking (v : bool) (p : Participant) : Participant :=
  mkParticipant (user_id p) (name p) (preferred_language p) (vr_position p)
    (is_muted p) v (join_time p) (avatar_id p) (recent_gestures p) (obj p).

Definition set_recent_gestures (v : list VRGesture) (p : Participant) : Participant :=
  mkParticipant (user_id p) (name p) (preferred_language p) (vr_position p)
    (is_muted p) (is_speaking p) (join_time p) (avatar_id p) v (obj p).

(* ================================================================= *)
(** * What the room sends out *)

(** [get_room_state_for_web()] without the cosmetic fields: the
    participants are the registry's values, each with
    [recent_gestures[-5:]].  [languages_in_use] is built from a [set];
    its order is first occurrence here. *)
Record RoomView := mkRoomView {
  view_room_id : string;
  view_room_name : string;
  view_is_active : bool;
  participant_count : nat;
  view_video_recording_enabled : bool;
  view_participants : list Participant;
  view_recent_gestures : list VRGesture;
  languages_in_use : list string;
  view_start_time : option Time;
  moderation_count : nat;
  transcript_count : nat
}.

(** The [recording_data] written by the two save handlers. *)
Record RecordingData := mkRecordingData {
  rec_room_id : string;
  rec_room_name : string;
  rec_project_context : string;
  rec_start_time : option Time;
  rec_end_time : Time;
  rec_participants : list string;
  rec_transcript : list TranscriptEntry;
  rec_moderation_log : list ModerationRecord
}.

(** [round(x, ndigits)], kept as written: decimal rounding is not
    evaluated. *)
Inductive Rounded : Set :=
| round (x : float) (ndigits : Z).

(** [socketio.emit(event, payload)] for each event of the program, the
    timer started by [perform_gesture] and the file written on save. *)
Inductive Effect :=
| emit_room_update (view : RoomView)
| emit_user_joined (name language : string)
| emit_position_update (user_id : string) (position rotation : float * float * float)
| emit_proximity_alert (user1 user2 : string) (distance : Rounded)
| emit_speaking_update (user_id : string) (is_speaking : bool)
| emit_gesture_performed (user_id user gesture language : string) (timestamp : Time)
| emit_recording_update (is_recording : bool) (message : string)
| emit_moderation_alert (log_entry : ModerationRecord)
| emit_save_recording_response (filename : Time)
| timer_start (delay : float) (user_id : string) (participant : nat)
| file_write (filename : Time) (recording_data : RecordingData).

(* ================================================================= *)
(** * Methods as state transformers *)

Record Outcome (A : Type) := mkOutcome {
  result : PyResult A;
  state : Room;
  effects : list Effect
}.

Arguments mkOutcome {A} result state effects.
Arguments result {A} o.
Arguments state {A} o.
Arguments effects {A} o.

Definition M (A : Type) : Type := Room -> Outcome A.

Definition ret {A : Type} (a : A) : M A :=
  fun r => mkOutcome (Ok a) r [].

Definition bind {A B : Type} (m : M A) (k : A -> M B) : M B :=
  fun r =>
    let o := m r in
    match result o with
    | Ok a =>
        let o' := k a (state o) in
        mkOutcome (result o') (state o') (effects o ++ effects o')
    | Raise e => mkOutcome (Raise e) (state o) (effects o)
    end.

(** Read [self]. *)
Definition get : M Room :=
  fun r => mkOutcome (Ok r) r [].

(** Assign to attributes of [self]. *)
Definition modify (f : Room -> Room) : M unit :=
  fun r => mkOutcome (Ok tt) (f r) [].

Definition emit (e : Effect) : M unit :=
  fun r => mkOutcome (Ok tt) r [e].

(** A computation that touches no state: its value, or its exception. *)
Definition lift {A : Type} (x : PyResult A) : M A :=
  fun r => mkOutcome x r [].

Declare Scope room_scope.
Delimit Scope room_scope with room.
Notation "x <- m ;; k" := (bind m (fun x => k))
  (at level 61, m at next level, right associativity) : room_scope.
Notation "m ;; k" := (bind m (fun _ => k))
  (at level 61, right associativity) : room_scope.

Open Scope room_scope.
Open Scope string_scope.

(** [for a in l: body(a)] *)
Fixpoint for_each {A : Type} (l : list A) (body : A -> M unit) : M unit :=
  match l with
  | [] => ret tt
  | a :: l' => body a ;; for_each l' body
  end.

(** ** The view sent to the web clients *)

Definition get_room_state_for_web (r : Room) : RoomView :=
  {| view_room_id := room_id r;
     view_room_name := room_name r;
     view_is_active := is_active r;
     participant_count := List.length (participants r);
     view_video_recording_enabled := video_recording_enabled r;
     view_participants :=
       map (fun p => set_recent_gestures (last_n 5 (recent_gestures p)) p)
           (dict_values (participants r));
     view_recent_gestures := last_n 10 (gestures r);
     languages_in_use :=
       nodup string_dec
         (map (fun p => Language_value (preferred_language p))
              (dict_values (participants r)));
     view_start_time := start_time r;
     moderation_count := List.length (moderation_log r);
     transcript_count := List.length (session_transcript r) |}.

Definition emit_view : M unit :=
  r <- get ;; emit (emit_room_update (get_room_state_for_web r)).

(** ** Event log and moderation *)

Definition toxic_keywords : list string :=
  ["hate"; "stupid"; "idiot"; "shut up"; "useless"; "dumb"].

(** [entry["data"].get("message", "").lower()]: only a [str] has
    [lower]. *)
Definition message_lower (data : Dict PyVal) : PyResult string :=
  match dict_get "message" data with
  | None => Ok (PyStr.lower "")
  | Some (VStr s) => Ok (PyStr.lower s)
  | Some _ => Raise AttributeError
  end.

(** [any(word in message for word in toxic_keywords)] *)
Definition any_toxic (message : string) : bool :=
  existsb (fun word => PyStr.contains word message) toxic_keywords.

Definition _check_moderation (now : Time) (entry : TranscriptEntry) : M unit :=
  if String.eqb (entry_type entry) "chat" then
    message <- lift (message_lower (entry_data entry)) ;;
    if any_toxic message then
      let user_id :=
        match dict_get "user_id" (entry_data entry) with
        | Some v => v
        | None => VStr "unknown"
        end in
      let action := WARNING in
      let log_entry :=
        {| log_timestamp := now;
           log_user_id := user_id;
           log_message := message;
           log_action := ModerationAction_value action;
           log_reason := "Toxic language detected" |} in
      modify (fun r => set_moderation_log (moderation_log r ++ [log_entry]) r) ;;
      emit (emit_moderation_alert log_entry)
    else ret tt
  else ret tt.

Definition log_event_for_ai (now : Time) (event_type : string) (data : Dict PyVal)
  : M unit :=
  r <- get ;;
  if negb (ai_note_taking_enabled r || ai_moderation_enabled r
           || video_recording_enabled r)
  then ret tt
  else
    let entry :=
      {| entry_timestamp := now; entry_type := event_type; entry_data := data |} in
    modify (fun r => set_session_transcript (session_transcript r ++ [entry]) r) ;;
    r <- get ;;
    if ai_moderation_enabled r then _check_moderation now entry else ret tt.

(** ** Console rendering: only what can raise *)

Definition render_room_console : M unit :=
  r <- get ;;
  for_each (dict_values (participants r)) (fun participant =>
    lift (PyFloat.to_int_check (PyFloat.add (x (vr_position participant)) PyFloat.ten)) ;;
    lift (PyFloat.to_int_check (PyFloat.add (z (vr_position participant)) PyFloat.ten)) ;;
    _ <- lift (PyStr.first (name participant)) ;;
    ret tt) ;;
  for_each (dict_values (participants r)) (fun participant =>
    _ <- lift (PyStr.first (name participant)) ;;
    ret tt).

(** ** Participants *)

(** The [user_joined] event is sent without its flag and its localized
    message. *)
Definition add_participant (now : Time) (user_id name : string)
    (preferred_language : Language) (x y z : float) : M unit :=
  r <- get ;;
  let vr_position := VRPosition3 x y z in
  let participant :=
    {| user_id := user_id;
       name := name;
       preferred_language := preferred_language;
       vr_position := vr_position;
       is_muted := false;
       is_speaking := false;
       join_time := now;
       avatar_id := "avatar_" ++ PyStr.of_nat (List.length (participants r) + 1);
       recent_gestures := [];
       obj := next_obj r |} in
  modify (fun r => set_next_obj (S (next_obj r))
                     (set_participants (dict_set user_id participant (participants r)) r)) ;;
  r <- get ;;
  (if negb (is_active r)
   then modify (fun r => set_start_time (Some now) (set_is_active true r))
   else ret tt) ;;
  log_event_for_ai now "user_joined"
    [("user_id", VStr user_id); ("name", VStr name);
     ("language", VStr (Language_value preferred_language))] ;;
  emit_view ;;
  emit (emit_user_joined name (Language_value preferred_language)) ;;
  render_room_console.

Definition xyz (x y z : float) : Dict PyVal :=
  [("x", VFloat x); ("y", VFloat y); ("z", VFloat z)].

(** The body of the loop of [_check_proximity_interactions]. *)
Definition proximity_body (now : Time) (user_id : string)
    (participant : Participant) (new_pos : VRPosition)
    : string * Participant -> M unit :=
  fun '(other_id, other_participant) =>
    if String.eqb other_id user_id then ret tt
    else
      distance <- lift (distance_to new_pos (vr_position other_participant)) ;;
      r <- get ;;
      if PyFloat.ltb distance PyFloat.three && proximity_chat_enabled r then
        emit (emit_proximity_alert (name participant) (name other_participant)
                (round distance 2)) ;;
        log_event_for_ai now "proximity"
          [("user1", VStr (name participant));
           ("user2", VStr (name other_participant));
           ("distance", VFloat distance)]
      else ret tt.

Definition _check_proximity_interactions (now : Time) (user_id : string)
    (old_pos new_pos : VRPosition) : M unit :=
  r <- get ;;
  match dict_get user_id (participants r) with
  | None => lift (Raise KeyError)
  | Some participant =>
      for_each (participants r) (proximity_body now user_id participant new_pos)
  end.

Definition update_participant_position (now : Time) (user_id : string)
    (x y z rotation_x rotation_y rotation_z : float) : M bool :=
  r <- get ;;
  match dict_get user_id (participants r) with
  | None => ret false
  | Some participant =>
      let old_pos := vr_position participant in
      let new_pos := mkVRPosition x y z rotation_x rotation_y rotation_z in
      modify (fun r =>
        set_participants
          (dict_set user_id (set_vr_position new_pos participant) (participants r)) r) ;;
      log_event_for_ai now "position_update"
        [("user_id", VStr user_id);
         ("position", VDict (xyz x y z));
         ("rotation", VDict (xyz rotation_x rotation_y rotation_z))] ;;
      _check_proximity_interactions now user_id old_pos new_pos ;;
      emit (emit_position_update user_id (x, y, z)
              (rotation_x, rotation_y, rotation_z)) ;;
      ret true
  end.

(** ** Gestures *)

(** The callback of [threading.Timer(2.0, stop_speaking)]: it clears the
    flag on the participant object it was started for, which is in the
    registry only as long as no later [add_participant] replaced it. *)
Definition stop_speaking (user_id : string) (participant : nat) : M unit :=
  modify (fun r =>
    match dict_get user_id (participants r) with
    | Some p =>
        if Nat.eqb (obj p) participant
        then set_participants
               (dict_set user_id (set_is_speaking false p) (participants r)) r
        else r
    | None => r
    end) ;;
  emit (emit_speaking_update user_id false) ;;
  emit_view.

(** The body of the last loop of [perform_gesture]: within 5.0 the
    gesture is seen, which is printed only. *)
Definition visibility_body (user_id : string) (participant : Participant)
    : string * Participant -> M unit :=
  fun '(other_id, other_participant) =>
    if negb (String.eqb other_id user_id) then
      distance <- lift (distance_to (vr_position participant)
                          (vr_position other_participant)) ;;
      if PyFloat.ltb distance PyFloat.five then ret tt else ret tt
    else ret tt.

(** The localized [reaction] text is not computed: it is absent from the
    logged data and from the [gesture_performed] event. *)
Definition perform_gesture (now : Time) (user_id gesture_type hand : string)
    (intensity : float) : M bool :=
  r <- get ;;
  match dict_get user_id (participants r) with
  | None => ret false
  | Some participant =>
      let gesture :=
        {| gesture_type := gesture_type; hand := hand; intensity := intensity;
           duration := PyFloat.one; timestamp := now |} in
      modify (fun r => set_gestures (gestures r ++ [gesture]) r) ;;
      let participant :=
        set_is_speaking true
          (set_recent_gestures
             (last_n 5 (recent_gestures participant ++ [gesture])) participant) in
      modify (fun r =>
        set_participants (dict_set user_id participant (participants r)) r) ;;
      emit (emit_speaking_update user_id true) ;;
      emit (timer_start PyFloat.two user_id (obj participant)) ;;
      let lang_code := Language_value (preferred_language participant) in
      log_event_for_ai now "gesture"
        [("user_id", VStr user_id); ("user", VStr (name participant));
         ("gesture", VStr gesture_type); ("language", VStr lang_code)] ;;
      emit (emit_gesture_performed user_id (name participant) gesture_type
              lang_code (timestamp gesture)) ;;
      r <- get ;;
      for_each (participants r) (visibility_body user_id participant) ;;
      emit_view ;;
      ret true
  end.

(** ** Recording *)

Definition info_entry (now : Time) (message : string) : TranscriptEntry :=
  {| entry_timestamp := now; entry_type := "info";
     entry_data := [("message", VStr message)] |}.

(** The socket event ['toggle_recording']; the pictograph that opens each
    message of the source is left out. *)
Definition handle_toggle_recording (now : Time) : M unit :=
  modify (fun r => set_video_recording_enabled (negb (video_recording_enabled r)) r) ;;
  r <- get ;;
  msg <-
    (if video_recording_enabled r then
       modify (set_recording_start_time (Some now)) ;;
       r <- get ;;
       (match session_transcript r with
        | [] => modify (set_session_transcript [info_entry now "Recording started"])
        | _ :: _ => ret tt
        end) ;;
       let msg := "Video recording STARTED" in
       emit (emit_recording_update true msg) ;;
       ret msg
     else
       let msg := "Video recording STOPPED" in
       emit (emit_recording_update false msg) ;;
       ret msg) ;;
  r <- get ;;
  log_event_for_ai now "recording_toggle"
    [("state", VBool (video_recording_enabled r)); ("message", VStr msg)] ;;
  emit_view.

(** The dictionary built by [save_recording] and by
    [handle_save_recording]: [x or y] is [y] when the list [x] is empty. *)
Definition recording_data (now : Time) (r : Room) : RecordingData :=
  {| rec_room_id := room_id r;
     rec_room_name := room_name r;
     rec_project_context := project_context r;
     rec_start_time := start_time r;
     rec_end_time := now;
     rec_participants := map name (dict_values (participants r));
     rec_transcript :=
       match session_transcript r with
       | [] => [info_entry now "No events recorded yet"]
       | _ :: _ => session_transcript r
       end;
     rec_moderation_log := moderation_log r |}.

(** The route [/api/save_recording]; its answer is the file name. *)
Definition save_recording (now : Time) : M Time :=
  r <- get ;;
  let filename := now in
  emit (file_write filename (recording_data now r)) ;;
  ret filename.

(** The socket event ['save_recording']. *)
Definition handle_save_recording (now : Time) : M unit :=
  r <- get ;;
  let filename := now in
  emit (file_write filename (recording_data now r)) ;;
  emit (emit_save_recording_response filename).

(** What [demo_multilingual_vr_with_web] writes into the room before the
    first join. *)
Definition demo_start_recording (now : Time) : M unit :=
  modify (set_video_recording_enabled true) ;;
  modify (set_recording_start_time (Some now)) ;;
  modify (set_session_transcript [info_entry now "Recording started"]).

(* ================================================================= *)
(** * The room session *)

(** The calls that reach the room: the three coroutines, the socket
    handlers, the save route, the timer callback and the demo's
    start of recording.  The read-only routes are not listed. *)
Inductive Command :=
| AddParticipant (user_id name : string) (preferred_language : Language)
    (x y z : float)
| UpdateParticipantPosition (user_id : string)
    (x y z rotation_x rotation_y rotation_z : float)
| PerformGesture (user_id gesture_type hand : string) (intensity : float)
| ToggleRecording
| SaveRecording
| HandleSaveRecording
| StopSpeaking (user_id : string) (participant : nat)
| DemoStartRecording.

(** A call, with what it returned forgotten. *)
Definition forget {A : Type} (m : M A) : M unit := m ;; ret tt.

Definition run (now : Time) (c : Command) : M unit :=
  match c with
  | AddParticipant user_id name preferred_language x y z =>
      add_participant now user_id name preferred_language x y z
  | UpdateParticipantPosition user_id x y z rx ry rz =>
      forget (update_participant_position now user_id x y z rx ry rz)
  | PerformGesture user_id gesture_type hand intensity =>
      forget (perform_gesture now user_id gesture_type hand intensity)
  | ToggleRecording => handle_toggle_recording now
  | SaveRecording => forget (save_recording now)
  | HandleSaveRecording => handle_save_recording now
  | StopSpeaking user_id participant => stop_speaking user_id participant
  | DemoStartRecording => demo_start_recording now
  end.

(** The room after a call, whether it returned or raised. *)
Definition step (r : Room) (c : Time * Command) : Room :=
  state (run (fst c) (snd c) r).

Definition run_all (cs : list (Time * Command)) (r : Room) : Room :=
  fold_left step cs r.

Inductive reachable : Room -> Prop :=
| reachable_init (room_id room_name : string) :
    reachable (init room_id room_name)
| reachable_step (r : Room) (now : Time) (c : Command) :
    reachable r -> reachable (step r (now, c)).

(** The [proximity_alert] events among the effects of a call. *)
Fixpoint proximity_alerts (es : list Effect) : list (string * string * Rounded) :=
  match es with
  | [] => []
  | emit_proximity_alert user1 user2 distance :: es' =>
      (user1, user2, distance) :: proximity_alerts es'
  | _ :: es' => proximity_alerts es'
  end.

(* ================================================================= *)
(** * Notions used in the statements *)

(** One of note-taking, moderation and recording is on. *)
Definition logging_enabled (r : Room) : bool :=
  ai_note_taking_enabled r || ai_moderation_enabled r || video_recording_enabled r.

(** The room after [log_event_for_ai] has appended an entry, or has
    returned at once because the three features are off. *)
Definition logged (now : Time) (event_type : string) (data : Dict PyVal)
    (r : Room) : Room :=
  if logging_enabled r
  then set_session_transcript
         (session_transcript r ++ [mkEntry now event_type data]) r
  else r.

(** The room with its transcript forgotten: two rooms that agree on it
    differ in [session_transcript] at most. *)
Definition but_transcript (r : Room) : Room := set_session_transcript [] r.

(** [distance_to] where it returns; a NaN stands for a call that raises. *)
Definition distance_or_nan (a b : VRPosition) : float :=
  match distance_to a b with
  | Ok d => d
  | Raise _ => S754_nan
  end.


(** The participants other than [user_id], in the order of the registry. *)
Definition others (user_id : string) (ps : Dict Participant) : Dict Participant :=
  filter (fun kv => negb (String.eqb (fst kv) user_id)) ps.


(** The first join starts the session. *)
Definition activated (now : Time) (r : Room) : Room :=
  if is_active r then r else set_start_time (Some now) (set_is_active true r).

(** The participant object that [add_participant] builds in room [r]. *)
Definition new_participant (now : Time) (user_id name : string)
    (preferred_language : Language) (x y z : float) (r : Room) : Participant :=
  {| user_id := user_id;
     name := name;
     preferred_language := preferred_language;
     vr_position := VRPosition3 x y z;
     is_muted := false;
     is_speaking := false;
     join_time := now;
     avatar_id := "avatar_" ++ PyStr.of_nat (List.length (participants r) + 1);
     recent_gestures := [];
     obj := next_obj r |}.

(** The participant after [perform_gesture] has recorded [gesture]. *)
Definition gestured (gesture : VRGesture) (p : Participant) : Participant :=
  set_is_speaking true
    (set_recent_gestures (last_n 5 (recent_gestures p ++ [gesture])) p).

(** What a call writes into the room, the transcript aside. *)
Definition written (now : Time) (c : Command) (r : Room) : Room :=
  match c with
  | AddParticipant user_id name preferred_language x y z =>
      activated now
        (set_next_obj (S (next_obj r))
           (set_participants
              (dict_set user_id
                 (new_participant now user_id name preferred_language x y z r)
                 (participants r)) r))
  | UpdateParticipantPosition user_id x y z rx ry rz =>
      match dict_get user_id (participants r) with
      | None => r
      | Some p =>
          set_participants
            (dict_set user_id (set_vr_position (mkVRPosition x y z rx ry rz) p)
               (participants r)) r
      end
  | PerformGesture user_id gesture_type hand intensity =>
      match dict_get user_id (participants r) with
      | None => r
      | Some p =>
          let gesture := mkVRGesture gesture_type hand intensity PyFloat.one now in
          set_participants
            (dict_set user_id (gestured gesture p) (participants r))
            (set_gestures (gestures r ++ [gesture]) r)
      end
  | ToggleRecording =>
      if video_recording_enabled r
      then set_video_recording_enabled false r
      else set_recording_start_time (Some now) (set_video_recording_enabled true r)
  | SaveRecording | HandleSaveRecording => r
  | StopSpeaking user_id participant =>
      match dict_get user_id (participants r) with
      | Some p =>
          if Nat.eqb (obj p) participant
          then set_participants
                 (dict_set user_id (set_is_speaking false p) (participants r)) r
          else r
      | None => r
      end
  | DemoStartRecording =>
      set_recording_start_time (Some now) (set_video_recording_enabled true r)
  end.

(** The event types that the calls of the program pass to
    [log_event_for_ai] or write into the transcript themselves. *)
Definition logged_types : list string :=
  ["user_joined"; "position_update"; "proximity"; "gesture";
   "recording_toggle"; "info"].

(** The record that [_check_moderation] appends for a chat entry whose
    lower-cased message is [message]. *)
Definition moderation_record (now : Time) (data : Dict PyVal) (message : string)
    : ModerationRecord :=
  {| log_timestamp := now;
     log_user_id :=
       match dict_get "user_id" data with
       | Some v => v
       | None => VStr "unknown"
       end;
     log_message := message;
     log_action := ModerationAction_value WARNING;
     log_reason := "Toxic language detected" |}.



(** ** Floats: signs and mirrored differences *)

Definition signed_as (s : bool) (f : float) : Prop :=
  match f with
  | S754_zero s' | S754_infinity s' | S754_finite s' _ _ => s' = s
  | S754_nan => False
  end.

(** A square, or a sum of squares: [+0.0], positive, or [+inf]. *)
Definition nonneg (f : float) : Prop := signed_as false f.

(** The same, or a NaN. *)
Definition nonneg_or_nan (f : float) : Prop := f = S754_nan \/ nonneg f.


(** ** Methods that write nothing, and effects put in front *)

(** A method that neither writes nor emits. *)
Definition silent {A : Type} (m : M A) : Prop :=
  forall r, state (m r) = r /\ effects (m r) = [].

(** The outcome [o] of the rest of a method, after the effects [es]. *)
Definition after {A : Type} (es : list Effect) (o : Outcome A) : Outcome A :=
  mkOutcome (result o) (state o) (es ++ effects o).

(** ** Invariants of the session *)

(** The two states of the session. *)
Definition session_states (r : Room) : Prop :=
  (is_active r = false -> participants r = [] /\ start_time r = None) /\
  (is_active r = true -> participants r <> [] /\ exists t, start_time r = Some t).

(** Every participant keeps at most five recent gestures. *)
Definition gestures_bounded (r : Room) : Prop :=
  forall k p, In (k, p) (participants r) ->
              (List.length (recent_gestures p) <= 5)%nat.

(** ** The rooms of the scenarios *)

(** The room of the scenarios: Alice at (-4, 0, 0), then Bob at (4, 0, 0). *)
Definition room_a : Room :=
  step (init "vr_multilingual" "Global Localization Project Kickoff")
    (1, AddParticipant "a" "Alice" ENGLISH
          (PyFloat.of_Z (-4)) (PyFloat.of_Z 0) (PyFloat.of_Z 0)).

(** The same room after Bob has joined. *)
Definition room_ab : Room :=
  step room_a
    (2, AddParticipant "b" "Bob" TURKISH
          (PyFloat.of_Z 4) (PyFloat.of_Z 0) (PyFloat.of_Z 0)).

(** A move along the x axis, to an integer coordinate. *)
Definition move (now : Time) (user_id : string) (x : Z) (r : Room) : Outcome bool :=
  update_participant_position now user_id
    (PyFloat.of_Z x) (PyFloat.of_Z 0) (PyFloat.of_Z 0)
    (PyFloat.of_Z 0) (PyFloat.of_Z 0) (PyFloat.of_Z 0) r.


(* ================================================================= *)
(* ================================================================= *)
(** * Meeting notes *)

(** [', '.join(l)] *)
Fixpoint join_comma (l : list string) : string :=
  match l with
  | [] => ""
  | [s] => s
  | s :: l' => s ++ ", " ++ join_comma l'
  end.

(** [d[k]] *)
Definition dict_item {V : Type} (k : string) (d : Dict V) : PyResult V :=
  match dict_get k d with
  | Some v => Ok v
  | None => Raise KeyError
  end.

(** The dictionary returned by [generate_ai_notes]; [notes_duration] is the
    difference [now - start_time] before it is printed, [None] standing
    for ["N/A"]. *)
Record Notes := mkNotes {
  summary : string;
  action_items : list string;
  key_moments : list string;
  notes_participant_count : nat;
  gesture_count : nat;
  notes_duration : option Z
}.

Section Notes.

(** Python's [str()] as used by an f-string; only its value on a string,
    the string itself, is relied on. *)
Variable str : PyVal -> string.

(** [f"{g['data']['user']} performed '{g['data']['gesture']}'"] *)
Definition key_moment (g : TranscriptEntry) : PyResult string :=
  let? user := dict_item "user" (entry_data g) in
  let? gesture := dict_item "gesture" (entry_data g) in
  Ok (str user ++ " performed '" ++ str gesture ++ "'").

(** [[f(g) for g in l]]: the first exception ends the comprehension. *)
Fixpoint comprehension {A B : Type} (f : A -> PyResult B) (l : list A)
    : PyResult (list B) :=
  match l with
  | [] => Ok []
  | a :: l' =>
      let? b := f a in
      let? bs := comprehension f l' in
      Ok (b :: bs)
  end.

Definition generate_ai_notes (now : Time) (r : Room) : PyResult Notes :=
  let participants := map name (dict_values (participants r)) in
  let gestures :=
    filter (fun e => String.eqb (entry_type e) "gesture") (session_transcript r) in
  let? key_moments := comprehension key_moment (last_n 10 gestures) in
  let summary :=
    "Team sync for '" ++ project_context r ++ "' with "
    ++ PyStr.of_nat (List.length participants) ++ " members: "
    ++ join_comma participants ++ ". "
    ++ "Participants reviewed initial localization requirements and demonstrated cross-cultural gestures. "
    ++ "Next phase: finalize language-specific UI assets by EOD Friday." in
  let action_items :=
    ["Alice (EN) to draft English UI copy by Thu";
     "Mehmet (TR) to validate Turkish date/time formats";
     "Carlos (ES) to provide Spanish voice samples";
     "Marie (FR) to review French legal disclaimers";
     "Hans (DE) to test German text expansion in VR layout";
     "Giulia (IT) to coordinate Italian beta testers";
     "Wei (ZH) to confirm Chinese character rendering in VR";
     "All: Share recording with stakeholders by tomorrow"] in
  Ok {| summary := summary;
        action_items := action_items;
        key_moments := key_moments;
        notes_participant_count := List.length participants;
        gesture_count := List.length gestures;
        notes_duration :=
          match start_time r with
          | Some t => Some (Z.of_nat now - Z.of_nat t)%Z
          | None => None
          end |}.

End Notes.

(* ================================================================= *)
(** * Notions used in the further statements *)

(** The ids of the registry after [self.participants[k] = ...]. *)
Definition add_key (k : string) (ks : list string) : list string :=
  if existsb (String.eqb k) ks then ks else ks ++ [k].

(** The ids of the registry after a call: only a join can add one. *)
Definition keys_step (ks : list string) (c : Time * Command) : list string :=
  match snd c with
  | AddParticipant user_id _ _ _ _ _ => add_key user_id ks
  | _ => ks
  end.

(** The id under which a call joins, if it is a join. *)
Definition joined_id (c : Time * Command) : option string :=
  match snd c with
  | AddParticipant user_id _ _ _ _ _ => Some user_id
  | _ => None
  end.

(** The registry as its methods keep it: distinct ids, every participant
    filed under its own [user_id], distinct objects, all created before
    [next_obj]. *)
Definition registry_ok (r : Room) : Prop :=
  NoDup (map fst (participants r))
  /\ NoDup (map (fun kv => obj (snd kv)) (participants r))
  /\ (forall k p, In (k, p) (participants r) ->
        user_id p = k /\ (obj p < next_obj r)%nat).



(** The entry that a move logs before it looks for neighbours. *)
Definition position_update_entry (now : Time) (user_id : string)
    (x y z rotation_x rotation_y rotation_z : float) : TranscriptEntry :=
  mkEntry now "position_update"
    [("user_id", VStr user_id);
     ("position", VDict (xyz x y z));
     ("rotation", VDict (xyz rotation_x rotation_y rotation_z))].

(** [old] is the beginning of [new]. *)
Definition extends {A : Type} (old new : list A) : Prop :=
  exists more : list A, new = (old ++ more)%list.

(** The entry that [perform_gesture] logs for participant [p]. *)
Definition gesture_entry (now : Time) (user_id gesture_type : string)
    (p : Participant) : TranscriptEntry :=
  mkEntry now "gesture"
    [("user_id", VStr user_id); ("user", VStr (name p));
     ("gesture", VStr gesture_type);
     ("language", VStr (Language_value (preferred_language p)))].

(** [e["type"] == "gesture"] *)
Definition is_gesture (e : TranscriptEntry) : bool :=
  String.eqb (entry_type e) "gesture".

(** What a call appends to the transcript, as far as the gesture entries
    go: a gesture of a participant of the registry appends its entry,
    every other call appends no gesture entry. *)
Definition appended (now : Time) (c : Command) (r : Room)
    (more : list TranscriptEntry) : Prop :=
  match c with
  | PerformGesture user_id gesture_type hand intensity =>
      match dict_get user_id (participants r) with
      | Some p =>
          more = if logging_enabled r
                 then [gesture_entry now user_id gesture_type
                         (gestured (mkVRGesture gesture_type hand intensity
                                      PyFloat.one now) p)]
                 else []
      | None => more = []
      end
  | _ => filter is_gesture more = []
  end.

(** A gesture entry of the transcript with the gesture of the room that
    it was logged for. *)
Definition gesture_logged (r : Room) (e : TranscriptEntry) : Prop :=
  exists (user_id user gesture language : string) (g : VRGesture),
    entry_data e
    = [("user_id", VStr user_id); ("user", VStr user);
       ("gesture", VStr gesture); ("language", VStr language)]
    /\ In g (gestures r)
    /\ gesture_type g = gesture
    /\ timestamp g = entry_timestamp e.

(** The gesture entries of the transcript are entries of gestures of the
    room, and there are no more of them than gestures. *)
Definition transcript_gestures_ok (r : Room) : Prop :=
  (List.length (filter is_gesture (session_transcript r))
   <= List.length (gestures r))%nat
  /\ forall e, In e (session_transcript r) -> is_gesture e = true ->
               gesture_logged r e.

(** [distance_to] returns. *)
Definition measurable (a b : VRPosition) : bool :=
  match distance_to a b with
  | Ok _ => true
  | Raise _ => false
  end.

(** One of the coordinates x, y, z is a NaN. *)
Definition nan_position (p : VRPosition) : Prop :=
  x p = S754_nan \/ y p = S754_nan \/ z p = S754_nan.

(** The values of the seven languages. *)
Definition language_values : list string :=
  map Language_value [ENGLISH; TURKISH; SPANISH; FRENCH; GERMAN; ITALIAN; CHINESE].

(** Every gesture in the history of a participant is in the gestures of
    the room. *)
Definition recent_in_log (r : Room) : Prop :=
  forall k p g, In (k, p) (participants r) ->
                In g (recent_gestures p) -> In g (gestures r).

(** The registry that a sequence of joins under distinct ids builds on
    a new room, [i] participants having joined before. *)
Fixpoint joined_from (i : nat) (cs : list (Time * Command)) : Dict Participant :=
  match cs with
  | [] => []
  | (now, AddParticipant user_id name preferred_language x y z) :: cs' =>
      (user_id,
       {| user_id := user_id;
          name := name;
          preferred_language := preferred_language;
          vr_position := VRPosition3 x y z;
          is_muted := false;
          is_speaking := false;
          join_time := now;
          avatar_id := "avatar_" ++ PyStr.of_nat (i + 1);
          recent_gestures := [];
          obj := i |}) :: joined_from (S i) cs'
  | _ :: cs' => joined_from i cs'
  end.

(** While recording is on, the time of its start is known. *)
Definition recording_started (r : Room) : Prop :=
  video_recording_enabled r = true -> exists t, recording_start_time r = Some t.

(* ================================================================= *)
(** * Properties of the float operations *)

Section FloatSymmetry.

Variables prec emax : Z.




End FloatSymmetry.






(** ** Rounding a non-negative mantissa never produces a NaN *)

Section RoundSign.

Variables prec emax : Z.

Lemma shr_1_nonneg (mrs : shr_record) :
  (0 <= shr_m mrs)%Z -> (0 <= shr_m (shr_1 mrs))%Z.
Proof.
  destruct mrs as [m r s]; simpl.
  destruct m as [|[p|p|]|p]; simpl; lia.
Qed.

Lemma iter_pos_shr_1_nonneg (n : positive) :
  forall mrs, (0 <= shr_m mrs)%Z -> (0 <= shr_m (iter_pos shr_1 n mrs))%Z.
Proof.
  induction n as [n IH|n IH|]; intros mrs H; simpl.
  - apply IH, IH, shr_1_nonneg, H.
  - apply IH, IH, H.
  - apply shr_1_nonneg, H.
Qed.

Lemma shr_fexp_nonneg (m e : Z) (l : location) :
  (0 <= m)%Z -> (0 <= shr_m (fst (shr_fexp prec emax m e l)))%Z.
Proof.
  intros Hm. unfold shr_fexp, shr.
  assert (H0 : (0 <= shr_m (shr_record_of_loc m l))%Z)
    by (destruct l as [|[]]; exact Hm).
  destruct (fexp prec emax (Zdigits2 m + e) - e)%Z; simpl; trivial.
  now apply iter_pos_shr_1_nonneg.
Qed.

Lemma round_nearest_even_nonneg (m : Z) (l : location) :
  (0 <= m)%Z -> (0 <= round_nearest_even m l)%Z.
Proof.
  intros Hm. destruct l as [|[]]; simpl; try lia.
  destruct (Z.even m); lia.
Qed.

Lemma binary_round_aux_signed (s : bool) (m e : Z) (l : location) :
  (0 <= m)%Z -> signed_as s (binary_round_aux prec emax s m e l).
Proof.
  intros Hm. unfold binary_round_aux.
  pose proof (shr_fexp_nonneg m e l Hm) as H1.
  destruct (shr_fexp prec emax m e l) as [mrs' e']. simpl in H1.
  pose proof (shr_fexp_nonneg _ e' loc_Exact
                (round_nearest_even_nonneg _ (loc_of_shr_record mrs') H1)) as H2.
  destruct (shr_fexp prec emax _ e' loc_Exact) as [mrs'' e'']. simpl in H2.
  destruct (shr_m mrs'') as [|p|p]; simpl; try reflexivity; [|lia].
  destruct (Z.leb e'' (emax - prec)); reflexivity.
Qed.

Lemma binary_round_signed (s : bool) (m : positive) (e : Z) :
  signed_as s (binary_round prec emax s m e).
Proof.
  unfold binary_round. destruct (shl_align m e _) as [mz ez].
  apply binary_round_aux_signed. lia.
Qed.

End RoundSign.

Lemma pow_2_cases (d v : float) :
  PyFloat.pow_2 d = Ok v -> (d = S754_nan /\ v = S754_nan) \/ nonneg v.
Proof.
  destruct d as [s|s| |s m e]; simpl.
  - intros [= <-]. right. reflexivity.
  - intros [= <-]. right. reflexivity.
  - intros [= <-]. now left.
  - match goal with |- context [PyFloat.eqb ?a _] => destruct (PyFloat.eqb a PyFloat.one) end.
    + intros [= <-]. right. reflexivity.
    + assert (H : signed_as false
                    (SFmul PyFloat.prec PyFloat.emax
                       (S754_finite false m e) (S754_finite false m e)))
        by (apply binary_round_aux_signed; lia).
      destruct s; simpl SFopp; cbv iota;
        destruct (SFmul _ _ _ _) as [s'|s'| |s' m' e']; try discriminate;
        intros [= <-]; right; exact H.
Qed.

Lemma pow_2_nonneg_or_nan (d v : float) :
  PyFloat.pow_2 d = Ok v -> nonneg_or_nan v.
Proof.
  intros H. destruct (pow_2_cases _ _ H) as [[_ ->]|Hv]; [now left|now right].
Qed.


Lemma add_nonneg (a b : float) :
  nonneg a -> nonneg b -> nonneg (PyFloat.add a b).
Proof.
  unfold nonneg, PyFloat.add.
  destruct a as [sa|sa| |sa ma ea], b as [sb|sb| |sb mb eb]; simpl;
    try contradiction; intros -> ->; try reflexivity.
  cbv [cond_Zopp]. simpl Z.add. apply binary_round_signed.
Qed.

Lemma add_nonneg_or_nan (a b : float) :
  nonneg_or_nan a -> nonneg_or_nan b -> nonneg_or_nan (PyFloat.add a b).
Proof.
  intros [->|Ha]; [now left|].
  intros [->|Hb]; [left; destruct a; reflexivity|].
  right. now apply add_nonneg.
Qed.

Lemma pow_half_nonneg_or_nan (a : float) :
  nonneg_or_nan a -> PyFloat.pow_half a <> Raise TypeError.
Proof.
  intros [->|H]; [discriminate|].
  destruct a as [s|s| |s m e]; try discriminate.
  red in H; cbn [signed_as] in H; subst s. unfold PyFloat.pow_half.
  destruct (PyFloat.eqb (S754_finite false m e) PyFloat.one); [discriminate|].
  destruct (SFsqrt PyFloat.prec PyFloat.emax (S754_finite false m e)); discriminate.
Qed.

Lemma sqrtrem_fst_nonneg (n : Z) : (0 <= fst (Z.sqrtrem n))%Z.
Proof. rewrite Z.sqrtrem_sqrt. apply Z.sqrt_nonneg. Qed.

Lemma pow_half_nonneg (a v : float) :
  nonneg a -> PyFloat.pow_half a = Ok v -> nonneg v.
Proof.
  unfold nonneg.
  destruct a as [s|s| |s m e]; cbn [signed_as]; try contradiction; intros ->.
  - intros [= <-]; reflexivity.
  - intros [= <-]; reflexivity.
  - unfold PyFloat.pow_half.
    destruct (PyFloat.eqb (S754_finite false m e) PyFloat.one);
      [intros [= <-]; reflexivity|].
    assert (H : signed_as false (SFsqrt PyFloat.prec PyFloat.emax (S754_finite false m e))).
    { unfold SFsqrt, SFsqrt_core_binary.
      match goal with |- context [Z.sqrtrem ?n] =>
        pose proof (sqrtrem_fst_nonneg n) as Hq; destruct (Z.sqrtrem n) as [q r] end.
      apply binary_round_aux_signed. exact Hq. }
    destruct (SFsqrt PyFloat.prec PyFloat.emax (S754_finite false m e));
      try discriminate; intros [= <-]; exact H.
Qed.


Lemma pow_2_raise (d : float) (e : PyExc) :
  PyFloat.pow_2 d = Raise e -> e = OverflowError.
Proof.
  destruct d as [s|s| |s m ex]; simpl; try discriminate.
  match goal with |- context [PyFloat.eqb ?a _] => destruct (PyFloat.eqb a PyFloat.one) end;
    [discriminate|].
  destruct s; simpl SFopp; cbv iota;
    destruct (SFmul _ _ _ _); congruence.
Qed.


(** [distance_to] never meets the complex branch of [**0.5]. *)
Lemma distance_to_not_complex (a b : VRPosition) :
  distance_to a b <> Raise TypeError.
Proof.
  unfold distance_to.
  destruct (PyFloat.pow_2 (PyFloat.sub (x a) (x b))) as [sx|e] eqn:Ex; simpl;
    [|apply pow_2_raise in Ex; congruence].
  destruct (PyFloat.pow_2 (PyFloat.sub (y a) (y b))) as [sy|e] eqn:Ey; simpl;
    [|apply pow_2_raise in Ey; congruence].
  destruct (PyFloat.pow_2 (PyFloat.sub (z a) (z b))) as [sz|e] eqn:Ez; simpl;
    [|apply pow_2_raise in Ez; congruence].
  apply pow_half_nonneg_or_nan.
  repeat apply add_nonneg_or_nan; eapply pow_2_nonneg_or_nan; eassumption.
Qed.


Lemma pow_half_raise (a : float) (e : PyExc) :
  PyFloat.pow_half a = Raise e -> e = TypeError \/ e = OverflowError.
Proof.
  destruct a as [s|s| |[] m ex]; unfold PyFloat.pow_half; try discriminate.
  - intros [= <-]. now left.
  - destruct (PyFloat.eqb (S754_finite false m ex) PyFloat.one); [discriminate|].
    destruct (SFsqrt PyFloat.prec PyFloat.emax (S754_finite false m ex));
      try discriminate.
    intros [= <-]. now right.
Qed.

Lemma distance_to_raise (a b : VRPosition) (e : PyExc) :
  distance_to a b = Raise e -> e = OverflowError.
Proof.
  intros H. pose proof (distance_to_not_complex a b) as NC. rewrite H in NC.
  revert H. unfold distance_to.
  destruct (PyFloat.pow_2 (PyFloat.sub (x a) (x b))) as [sx|e1] eqn:Ex; simpl;
    [|intros [= <-]; now apply pow_2_raise in Ex].
  destruct (PyFloat.pow_2 (PyFloat.sub (y a) (y b))) as [sy|e2] eqn:Ey; simpl;
    [|intros [= <-]; now apply pow_2_raise in Ey].
  destruct (PyFloat.pow_2 (PyFloat.sub (z a) (z b))) as [sz|e3] eqn:Ez; simpl;
    [|intros [= <-]; now apply pow_2_raise in Ez].
  intros H. apply pow_half_raise in H. destruct H; congruence.
Qed.

(* ================================================================= *)
(** * Running a method *)

Lemma run_bind {A B : Type} (m : M A) (k : A -> M B) (r : Room) (a : A)
    (r' : Room) (es : list Effect) :
  m r = mkOutcome (Ok a) r' es ->
  bind m k r = mkOutcome (result (k a r')) (state (k a r')) (es ++ effects (k a r')).
Proof. intros H. unfold bind. rewrite H. reflexivity. Qed.

Lemma run_bind_raise {A B : Type} (m : M A) (k : A -> M B) (r : Room) (e : PyExc)
    (r' : Room) (es : list Effect) :
  m r = mkOutcome (Raise e) r' es ->
  bind m k r = mkOutcome (Raise e) r' es.
Proof. intros H. unfold bind. rewrite H. reflexivity. Qed.

Lemma outcome_eta {A : Type} (o : Outcome A) :
  o = mkOutcome (result o) (state o) (effects o).
Proof. now destruct o. Qed.

Lemma log_event_for_ai_not_chat (now : Time) (event_type : string)
    (data : Dict PyVal) (r : Room) :
  String.eqb event_type "chat" = false ->
  log_event_for_ai now event_type data r
  = mkOutcome (Ok tt) (logged now event_type data r) [].
Proof.
  intros Hty.
  unfold log_event_for_ai, logged, logging_enabled, bind, get, modify, ret; simpl.
  destruct (ai_note_taking_enabled r || ai_moderation_enabled r
            || video_recording_enabled r); simpl; [|reflexivity].
  destruct (ai_moderation_enabled r); simpl; [|reflexivity].
  unfold _check_moderation; simpl. rewrite Hty. reflexivity.
Qed.

Lemma silent_ret {A : Type} (a : A) : silent (ret a).
Proof. intros r. split; reflexivity. Qed.

Lemma silent_lift {A : Type} (x : PyResult A) : silent (lift x).
Proof. intros r. split; reflexivity. Qed.

Lemma silent_get : silent get.
Proof. intros r. split; reflexivity. Qed.

Lemma silent_bind {A B : Type} (m : M A) (k : A -> M B) :
  silent m -> (forall a, silent (k a)) -> silent (bind m k).
Proof.
  intros Hm Hk r. destruct (Hm r) as [Hs He]. unfold bind.
  destruct (result (m r)) as [a|e]; simpl.
  - rewrite Hs, He. destruct (Hk a r) as [Hs' He']. now rewrite Hs', He'.
  - now split.
Qed.

Lemma silent_for_each {A : Type} (l : list A) (body : A -> M unit) :
  (forall a, silent (body a)) -> silent (for_each l body).
Proof.
  intros Hb. induction l as [|a l IH]; simpl.
  - apply silent_ret.
  - apply silent_bind; auto.
Qed.

Lemma silent_run {A : Type} (m : M A) (r : Room) :
  silent m -> m r = mkOutcome (result (m r)) r [].
Proof.
  intros H. destruct (H r) as [Hs He].
  rewrite (outcome_eta (m r)) at 1. now rewrite Hs, He.
Qed.

Ltac silent :=
  repeat first
    [ apply silent_ret | apply silent_lift | apply silent_get
    | apply silent_for_each; intros
    | apply silent_bind; [|intros]
    | match goal with
      | |- silent (if ?c then _ else _) => destruct c
      | |- silent (match ?p with (_, _) => _ end) => destruct p
      | |- silent (let '(_, _) := ?p in _) => destruct p
      end ].

Lemma render_room_console_silent : silent render_room_console.
Proof. unfold render_room_console. silent. Qed.

(** ** Equations for running a sequence of statements *)

Lemma after_nil {A : Type} (o : Outcome A) : after [] o = o.
Proof. now destruct o. Qed.

Lemma after_after {A : Type} (es es' : list Effect) (o : Outcome A) :
  after es (after es' o) = after (es ++ es') o.
Proof. unfold after; simpl. now rewrite app_assoc. Qed.

Lemma after_mk {A : Type} (es es' : list Effect) (x : PyResult A) (r : Room) :
  after es (mkOutcome x r es') = mkOutcome x r (es ++ es').
Proof. reflexivity. Qed.

Lemma after_ret {A : Type} (es : list Effect) (a : A) (r : Room) :
  after es (ret a r) = mkOutcome (Ok a) r es.
Proof. unfold after, ret; simpl. now rewrite app_nil_r. Qed.

Lemma after_emit (es : list Effect) (e : Effect) (r : Room) :
  after es (emit e r) = mkOutcome (Ok tt) r (es ++ [e]).
Proof. reflexivity. Qed.

Lemma bind_run {A B : Type} (m : M A) (k : A -> M B) (r : Room) :
  bind m k r
  = match result (m r) with
    | Ok a => after (effects (m r)) (k a (state (m r)))
    | Raise e => mkOutcome (Raise e) (state (m r)) (effects (m r))
    end.
Proof. unfold bind, after. now destruct (result (m r)). Qed.

Lemma bind_get {B : Type} (k : Room -> M B) (r : Room) :
  bind get k r = k r r.
Proof. rewrite bind_run. simpl. apply after_nil. Qed.

Lemma bind_modify {B : Type} (f : Room -> Room) (k : unit -> M B) (r : Room) :
  bind (modify f) k r = k tt (f r).
Proof. rewrite bind_run. simpl. apply after_nil. Qed.

Lemma bind_ret {A B : Type} (a : A) (k : A -> M B) (r : Room) :
  bind (ret a) k r = k a r.
Proof. rewrite bind_run. simpl. apply after_nil. Qed.

Lemma bind_emit {B : Type} (e : Effect) (k : unit -> M B) (r : Room) :
  bind (emit e) k r = after [e] (k tt r).
Proof. rewrite bind_run. reflexivity. Qed.

Lemma bind_lift_ok {A B : Type} (a : A) (k : A -> M B) (r : Room) :
  bind (lift (Ok a)) k r = k a r.
Proof. rewrite bind_run. simpl. apply after_nil. Qed.

Lemma bind_lift_raise {A B : Type} (e : PyExc) (k : A -> M B) (r : Room) :
  bind (lift (Raise e)) k r = mkOutcome (Raise e) r [].
Proof. rewrite bind_run. reflexivity. Qed.

Lemma bind_bind {A B C : Type} (m : M A) (k : A -> M B) (h : B -> M C) (r : Room) :
  bind (bind m k) h r = bind m (fun a => bind (k a) h) r.
Proof.
  rewrite !bind_run. destruct (result (m r)) as [a|e] eqn:E; simpl.
  - rewrite bind_run. destruct (result (k a (state (m r)))); simpl.
    + now rewrite after_after.
    + reflexivity.
  - reflexivity.
Qed.

Lemma bind_known {A B : Type} (m : M A) (k : A -> M B) (r r' : Room) (a : A)
    (es : list Effect) :
  m r = mkOutcome (Ok a) r' es -> bind m k r = after es (k a r').
Proof. intros H. rewrite bind_run, H. reflexivity. Qed.

Lemma bind_silent {A B : Type} (m : M A) (k : A -> M B) (r : Room) :
  silent m ->
  bind m k r
  = match result (m r) with
    | Ok a => k a r
    | Raise e => mkOutcome (Raise e) r []
    end.
Proof.
  intros H. destruct (H r) as [Hs He]. rewrite bind_run, Hs, He.
  destruct (result (m r)); [apply after_nil|reflexivity].
Qed.

Lemma bind_log_event {B : Type} (now : Time) (event_type : string)
    (data : Dict PyVal) (k : unit -> M B) (r : Room) :
  String.eqb event_type "chat" = false ->
  bind (log_event_for_ai now event_type data) k r
  = k tt (logged now event_type data r).
Proof.
  intros H. rewrite (bind_known _ k _ _ _ _ (log_event_for_ai_not_chat now _ data r H)).
  apply after_nil.
Qed.

Lemma emit_view_run (r : Room) :
  emit_view r = mkOutcome (Ok tt) r [emit_room_update (get_room_state_for_web r)].
Proof. reflexivity. Qed.

Lemma bind_emit_view {B : Type} (k : unit -> M B) (r : Room) :
  bind emit_view k r
  = after [emit_room_update (get_room_state_for_web r)] (k tt r).
Proof. now rewrite (bind_known _ k _ _ _ _ (emit_view_run r)). Qed.

(** One statement at a time. *)
Ltac mrun_step :=
  first
    [ rewrite bind_bind
    | rewrite bind_get
    | rewrite bind_modify
    | rewrite bind_ret
    | rewrite bind_emit
    | rewrite bind_emit_view
    | rewrite bind_lift_ok
    | rewrite bind_lift_raise
    | rewrite bind_log_event by reflexivity
    | rewrite after_after
    | rewrite after_ret
    | rewrite after_emit
    | rewrite after_mk
    | rewrite after_nil ].

Ltac mrun := repeat mrun_step.

(** ** The registry *)

Lemma dict_get_set {V : Type} (k : string) (v : V) (d : Dict V) :
  dict_get k (dict_set k v d) = Some v.
Proof.
  induction d as [|[k' v'] d IH]; simpl.
  - now rewrite String.eqb_refl.
  - destruct (String.eqb k' k) eqn:E; simpl.
    + now rewrite String.eqb_refl.
    + now rewrite E.
Qed.

Lemma dict_get_set_other {V : Type} (k k' : string) (v : V) (d : Dict V) :
  String.eqb k k' = false -> dict_get k' (dict_set k v d) = dict_get k' d.
Proof.
  intros Hk. induction d as [|[k0 v0] d IH]; simpl.
  - now rewrite Hk.
  - destruct (String.eqb k0 k) eqn:E; simpl.
    + apply String.eqb_eq in E. subst k0. now rewrite Hk.
    + now rewrite IH.
Qed.

Lemma dict_set_length_present {V : Type} (k : string) (v v0 : V) (d : Dict V) :
  dict_get k d = Some v0 -> List.length (dict_set k v d) = List.length d.
Proof.
  induction d as [|[k' v'] d IH]; simpl; [discriminate|].
  destruct (String.eqb k' k); simpl; auto.
Qed.

Lemma dict_set_length_absent {V : Type} (k : string) (v : V) (d : Dict V) :
  dict_get k d = None -> List.length (dict_set k v d) = S (List.length d).
Proof.
  induction d as [|[k' v'] d IH]; simpl; [reflexivity|].
  destruct (String.eqb k' k); simpl; [discriminate|auto].
Qed.

Lemma dict_set_keys_present {V : Type} (k : string) (v v0 : V) (d : Dict V) :
  dict_get k d = Some v0 -> map fst (dict_set k v d) = map fst d.
Proof.
  induction d as [|[k' v'] d IH]; simpl; [discriminate|].
  destruct (String.eqb k' k) eqn:E; simpl; intros H.
  - apply String.eqb_eq in E. now subst.
  - now rewrite IH.
Qed.

Lemma In_dict_set {V : Type} (k k' : string) (v v' : V) (d : Dict V) :
  In (k', v') (dict_set k v d) -> (k', v') = (k, v) \/ In (k', v') d.
Proof.
  induction d as [|[k0 v0] d IH]; simpl.
  - intros [H|[]]. now left.
  - destruct (String.eqb k0 k); simpl; intros [H|H]; auto.
    destruct (IH H); auto.
Qed.

Lemma others_dict_set {V : Type} (k : string) (v : V) (d : Dict V) :
  filter (fun kv : string * V => negb (String.eqb (fst kv) k)) (dict_set k v d)
  = filter (fun kv => negb (String.eqb (fst kv) k)) d.
Proof.
  induction d as [|[k' v'] d IH]; simpl.
  - now rewrite String.eqb_refl.
  - destruct (String.eqb k' k) eqn:E; simpl.
    + now rewrite String.eqb_refl.
    + now rewrite E, IH.
Qed.

(** ** Logging leaves everything but the transcript *)

Lemma but_transcript_logged (now : Time) (ty : string) (data : Dict PyVal) (r : Room) :
  but_transcript (logged now ty data r) = but_transcript r.
Proof. unfold logged. now destruct (logging_enabled r). Qed.

Lemma but_transcript_fields (r r' : Room) :
  but_transcript r = but_transcript r' ->
  participants r = participants r' /\
  gestures r = gestures r' /\
  is_active r = is_active r' /\
  start_time r = start_time r' /\
  moderation_log r = moderation_log r' /\
  proximity_chat_enabled r = proximity_chat_enabled r' /\
  ai_moderation_enabled r = ai_moderation_enabled r' /\
  ai_note_taking_enabled r = ai_note_taking_enabled r' /\
  video_recording_enabled r = video_recording_enabled r' /\
  next_obj r = next_obj r'.
Proof.
  intros H.
  repeat split;
    [ change (participants r) with (participants (but_transcript r))
    | change (gestures r) with (gestures (but_transcript r))
    | change (is_active r) with (is_active (but_transcript r))
    | change (start_time r) with (start_time (but_transcript r))
    | change (moderation_log r) with (moderation_log (but_transcript r))
    | change (proximity_chat_enabled r) with (proximity_chat_enabled (but_transcript r))
    | change (ai_moderation_enabled r) with (ai_moderation_enabled (but_transcript r))
    | change (ai_note_taking_enabled r) with (ai_note_taking_enabled (but_transcript r))
    | change (video_recording_enabled r) with (video_recording_enabled (but_transcript r))
    | change (next_obj r) with (next_obj (but_transcript r)) ];
    rewrite H; reflexivity.
Qed.

Lemma logged_fields (now : Time) (ty : string) (data : Dict PyVal) (r : Room) :
  participants (logged now ty data r) = participants r /\
  gestures (logged now ty data r) = gestures r /\
  is_active (logged now ty data r) = is_active r /\
  start_time (logged now ty data r) = start_time r /\
  moderation_log (logged now ty data r) = moderation_log r /\
  proximity_chat_enabled (logged now ty data r) = proximity_chat_enabled r /\
  ai_moderation_enabled (logged now ty data r) = ai_moderation_enabled r /\
  ai_note_taking_enabled (logged now ty data r) = ai_note_taking_enabled r /\
  video_recording_enabled (logged now ty data r) = video_recording_enabled r /\
  next_obj (logged now ty data r) = next_obj r.
Proof. apply but_transcript_fields, but_transcript_logged. Qed.


(** ** The methods, run *)

Lemma add_participant_run (now : Time) (user_id name : string)
    (preferred_language : Language) (x y z : float) (r : Room) :
  let p := new_participant now user_id name preferred_language x y z r in
  let r' :=
    logged now "user_joined"
      [("user_id", VStr user_id); ("name", VStr name);
       ("language", VStr (Language_value preferred_language))]
      (activated now
         (set_next_obj (S (next_obj r))
            (set_participants (dict_set user_id p (participants r)) r))) in
  add_participant now user_id name preferred_language x y z r
  = mkOutcome (result (render_room_console r')) r'
      [emit_room_update (get_room_state_for_web r');
       emit_user_joined name (Language_value preferred_language)].
Proof.
  intros p r'. unfold add_participant. mrun. fold (new_participant now user_id name preferred_language x y z r). fold p.
  subst r'. unfold activated. cbn [is_active set_next_obj set_participants].
  destruct (is_active r); cbn [negb]; mrun;
    rewrite (silent_run _ _ render_room_console_silent) at 1; reflexivity.
Qed.


(** One turn of the proximity loop. *)
Lemma proximity_body_run (now : Time) (user_id : string) (participant : Participant)
    (new_pos : VRPosition) (other_id : string) (other : Participant) (r : Room) :
  proximity_body now user_id participant new_pos (other_id, other) r
  = if String.eqb other_id user_id then mkOutcome (Ok tt) r []
    else
      match distance_to new_pos (vr_position other) with
      | Raise e => mkOutcome (Raise e) r []
      | Ok distance =>
          if PyFloat.ltb distance PyFloat.three && proximity_chat_enabled r
          then mkOutcome (Ok tt)
                 (logged now "proximity"
                    [("user1", VStr (name participant));
                     ("user2", VStr (name other));
                     ("distance", VFloat distance)] r)
                 [emit_proximity_alert (name participant) (name other)
                    (round distance 2)]
          else mkOutcome (Ok tt) r []
      end.
Proof.
  unfold proximity_body.
  destruct (String.eqb other_id user_id); [reflexivity|].
  destruct (distance_to new_pos (vr_position other)) as [d|e]; mrun; [|reflexivity].
  destruct (PyFloat.ltb d PyFloat.three && proximity_chat_enabled r); [|reflexivity].
  mrun. now rewrite log_event_for_ai_not_chat.
Qed.

Lemma proximity_loop_frame (now : Time) (user_id : string) (participant : Participant)
    (new_pos : VRPosition) (l : Dict Participant) :
  forall r,
    but_transcript
      (state (for_each l (proximity_body now user_id participant new_pos) r))
    = but_transcript r.
Proof.
  induction l as [|[k p] l IH]; intros r; cbn [for_each]; [reflexivity|].
  rewrite bind_run, proximity_body_run.
  destruct (String.eqb k user_id); simpl; [apply IH|].
  destruct (distance_to new_pos (vr_position p)) as [d|e]; simpl; [|reflexivity].
  destruct (PyFloat.ltb d PyFloat.three && proximity_chat_enabled r); simpl.
  - rewrite IH. apply but_transcript_logged.
  - apply IH.
Qed.

Lemma proximity_loop_raise (now : Time) (user_id : string) (participant : Participant)
    (new_pos : VRPosition) (l : Dict Participant) :
  forall r e,
    result (for_each l (proximity_body now user_id participant new_pos) r) = Raise e ->
    e = OverflowError.
Proof.
  induction l as [|[k p] l IH]; intros r e; cbn [for_each]; [discriminate|].
  rewrite bind_run, proximity_body_run.
  destruct (String.eqb k user_id); simpl; [apply IH|].
  destruct (distance_to new_pos (vr_position p)) as [d|e'] eqn:E; simpl.
  - destruct (PyFloat.ltb d PyFloat.three && proximity_chat_enabled r); simpl; apply IH.
  - intros [= <-]. eapply distance_to_raise; eassumption.
Qed.


Lemma update_participant_position_absent (now : Time) (user_id : string)
    (x y z rx ry rz : float) (r : Room) :
  dict_get user_id (participants r) = None ->
  update_participant_position now user_id x y z rx ry rz r
  = mkOutcome (Ok false) r [].
Proof.
  intros H. unfold update_participant_position. rewrite bind_get, H. reflexivity.
Qed.

Lemma update_participant_position_present (now : Time) (user_id : string)
    (x y z rx ry rz : float) (r : Room) (p : Participant) :
  dict_get user_id (participants r) = Some p ->
  let new_pos := mkVRPosition x y z rx ry rz in
  let p' := set_vr_position new_pos p in
  let r1 :=
    logged now "position_update"
      [("user_id", VStr user_id);
       ("position", VDict (xyz x y z));
       ("rotation", VDict (xyz rx ry rz))]
      (set_participants (dict_set user_id p' (participants r)) r) in
  let loop :=
    for_each (dict_set user_id p' (participants r))
      (proximity_body now user_id p' new_pos) r1 in
  update_participant_position now user_id x y z rx ry rz r
  = match result loop with
    | Ok _ =>
        mkOutcome (Ok true) (state loop)
          (effects loop ++ [emit_position_update user_id (x, y, z) (rx, ry, rz)])
    | Raise e => mkOutcome (Raise e) (state loop) (effects loop)
    end.
Proof.
  intros H new_pos p' r1 loop.
  unfold update_participant_position. rewrite bind_get, H.
  mrun. fold new_pos. fold p'. fold r1.
  unfold _check_proximity_interactions. mrun.
  assert (Hp : participants r1 = dict_set user_id p' (participants r))
    by (unfold r1; now rewrite (proj1 (logged_fields _ _ _ _))).
  rewrite Hp, dict_get_set, bind_run.
  change (for_each (dict_set user_id p' (participants r))
            (proximity_body now user_id p' new_pos) r1) with loop.
  destruct (result loop); [|reflexivity].
  mrun. reflexivity.
Qed.

Lemma visibility_body_silent (user_id : string) (participant : Participant)
    (kv : string * Participant) :
  silent (visibility_body user_id participant kv).
Proof. unfold visibility_body. destruct kv. silent. Qed.

Lemma perform_gesture_absent (now : Time) (user_id gesture_type hand : string)
    (intensity : float) (r : Room) :
  dict_get user_id (participants r) = None ->
  perform_gesture now user_id gesture_type hand intensity r
  = mkOutcome (Ok false) r [].
Proof.
  intros H. unfold perform_gesture. rewrite bind_get, H. reflexivity.
Qed.

Lemma perform_gesture_present (now : Time) (user_id gesture_type hand : string)
    (intensity : float) (r : Room) (p : Participant) :
  dict_get user_id (participants r) = Some p ->
  let gesture := mkVRGesture gesture_type hand intensity PyFloat.one now in
  let p' := gestured gesture p in
  let lang_code := Language_value (preferred_language p') in
  let r1 :=
    logged now "gesture"
      [("user_id", VStr user_id); ("user", VStr (name p'));
       ("gesture", VStr gesture_type); ("language", VStr lang_code)]
      (set_participants (dict_set user_id p' (participants r))
         (set_gestures (gestures r ++ [gesture]) r)) in
  let sent :=
    [emit_speaking_update user_id true;
     timer_start PyFloat.two user_id (obj p');
     emit_gesture_performed user_id (name p') gesture_type lang_code now] in
  perform_gesture now user_id gesture_type hand intensity r
  = match result (for_each (participants r1) (visibility_body user_id p') r1) with
    | Ok _ =>
        mkOutcome (Ok true) r1
          (sent ++ [emit_room_update (get_room_state_for_web r1)])
    | Raise e => mkOutcome (Raise e) r1 sent
    end.
Proof.
  intros H gesture p' lang_code r1 sent.
  unfold perform_gesture. rewrite bind_get, H.
  mrun. fold gesture. fold (gestured gesture p). fold p'.
  cbn [participants set_gestures]. fold lang_code. fold r1.
  rewrite bind_silent
    by (apply silent_for_each; intros; apply visibility_body_silent).
  destruct (result (for_each (participants r1) (visibility_body user_id p') r1));
    [|reflexivity].
  mrun. reflexivity.
Qed.

Lemma handle_toggle_recording_run (now : Time) (r : Room) :
  let on := negb (video_recording_enabled r) in
  let msg := if on then "Video recording STARTED" else "Video recording STOPPED" in
  let r1 :=
    if on then
      let r0 := set_recording_start_time (Some now)
                  (set_video_recording_enabled true r) in
      match session_transcript r with
      | [] => set_session_transcript [info_entry now "Recording started"] r0
      | _ :: _ => r0
      end
    else set_video_recording_enabled false r in
  let r2 := logged now "recording_toggle"
              [("state", VBool on); ("message", VStr msg)] r1 in
  handle_toggle_recording now r
  = mkOutcome (Ok tt) r2
      [emit_recording_update on msg; emit_room_update (get_room_state_for_web r2)].
Proof.
  unfold handle_toggle_recording. mrun.
  cbn [video_recording_enabled set_video_recording_enabled].
  destruct (video_recording_enabled r); cbn [negb]; mrun.
  - reflexivity.
  - cbn [session_transcript set_recording_start_time set_video_recording_enabled].
    destruct (session_transcript r); mrun; reflexivity.
Qed.

Lemma stop_speaking_run (user_id : string) (participant : nat) (r : Room) :
  let r' := written 0 (StopSpeaking user_id participant) r in
  stop_speaking user_id participant r
  = mkOutcome (Ok tt) r'
      [emit_speaking_update user_id false;
       emit_room_update (get_room_state_for_web r')].
Proof. unfold stop_speaking. mrun. reflexivity. Qed.

Lemma save_recording_run (now : Time) (r : Room) :
  save_recording now r
  = mkOutcome (Ok now) r [file_write now (recording_data now r)].
Proof. unfold save_recording. mrun. reflexivity. Qed.

Lemma handle_save_recording_run (now : Time) (r : Room) :
  handle_save_recording now r
  = mkOutcome (Ok tt) r
      [file_write now (recording_data now r); emit_save_recording_response now].
Proof. unfold handle_save_recording. mrun. reflexivity. Qed.

Lemma demo_start_recording_run (now : Time) (r : Room) :
  demo_start_recording now r
  = mkOutcome (Ok tt)
      (set_session_transcript [info_entry now "Recording started"]
         (set_recording_start_time (Some now)
            (set_video_recording_enabled true r))) [].
Proof. unfold demo_start_recording. mrun. reflexivity. Qed.

Lemma state_forget {A : Type} (m : M A) (r : Room) :
  state (forget m r) = state (m r).
Proof.
  unfold forget. rewrite bind_run. destruct (result (m r)); reflexivity.
Qed.

(** Every call leaves the room [written], up to the transcript. *)
Lemma step_but_transcript (r : Room) (now : Time) (c : Command) :
  but_transcript (step r (now, c)) = but_transcript (written now c r).
Proof.
  unfold step; cbn [fst snd].
  destruct c as [uid nm lang x y z|uid x y z rx ry rz|uid ty hd i| | | |uid o|];
    cbn [run written].
  - rewrite add_participant_run. cbn [state]. apply but_transcript_logged.
  - rewrite state_forget.
    destruct (dict_get uid (participants r)) as [p|] eqn:E.
    + rewrite (update_participant_position_present now uid x y z rx ry rz r p E).
      cbv zeta.
      match goal with
      | |- but_transcript (state (match result ?l with _ => _ end)) = _ =>
          transitivity (but_transcript (state l));
            [destruct (result l); reflexivity|]
      end.
      rewrite proximity_loop_frame. apply but_transcript_logged.
    + now rewrite update_participant_position_absent.
  - rewrite state_forget.
    destruct (dict_get uid (participants r)) as [p|] eqn:E.
    + rewrite (perform_gesture_present now uid ty hd i r p E). cbv zeta.
      match goal with
      | |- but_transcript (state (match ?l with _ => _ end)) = _ => destruct l
      end; cbn [state]; apply but_transcript_logged.
    + now rewrite perform_gesture_absent.
  - rewrite handle_toggle_recording_run. cbv zeta. cbn [state].
    rewrite but_transcript_logged.
    destruct (video_recording_enabled r); cbn [negb]; [reflexivity|].
    destruct (session_transcript r); reflexivity.
  - rewrite state_forget, save_recording_run. reflexivity.
  - rewrite handle_save_recording_run. reflexivity.
  - rewrite stop_speaking_run. reflexivity.
  - rewrite demo_start_recording_run. reflexivity.
Qed.

(* ================================================================= *)
(** * What no call writes *)

Ltac written_cases c r :=
  destruct c; cbn [written]; unfold activated;
  repeat match goal with
    | |- context [dict_get ?k (participants r)] =>
        destruct (dict_get k (participants r)) eqn:?
    | |- context [if ?b then _ else _] => destruct b eqn:?
    end.

Lemma written_constants (now : Time) (c : Command) (r : Room) :
  moderation_log (written now c r) = moderation_log r /\
  proximity_chat_enabled (written now c r) = proximity_chat_enabled r /\
  ai_moderation_enabled (written now c r) = ai_moderation_enabled r /\
  ai_note_taking_enabled (written now c r) = ai_note_taking_enabled r.
Proof. written_cases c r; repeat split; reflexivity. Qed.

Lemma step_fields (r : Room) (now : Time) (c : Command) :
  participants (step r (now, c)) = participants (written now c r) /\
  gestures (step r (now, c)) = gestures (written now c r) /\
  is_active (step r (now, c)) = is_active (written now c r) /\
  start_time (step r (now, c)) = start_time (written now c r) /\
  moderation_log (step r (now, c)) = moderation_log (written now c r) /\
  proximity_chat_enabled (step r (now, c)) = proximity_chat_enabled (written now c r) /\
  ai_moderation_enabled (step r (now, c)) = ai_moderation_enabled (written now c r) /\
  ai_note_taking_enabled (step r (now, c)) = ai_note_taking_enabled (written now c r) /\
  video_recording_enabled (step r (now, c)) = video_recording_enabled (written now c r) /\
  next_obj (step r (now, c)) = next_obj (written now c r).
Proof. apply but_transcript_fields, step_but_transcript. Qed.

Lemma step_constants (r : Room) (now : Time) (c : Command) :
  moderation_log (step r (now, c)) = moderation_log r /\
  proximity_chat_enabled (step r (now, c)) = proximity_chat_enabled r /\
  ai_moderation_enabled (step r (now, c)) = ai_moderation_enabled r /\
  ai_note_taking_enabled (step r (now, c)) = ai_note_taking_enabled r.
Proof.
  destruct (step_fields r now c) as (_ & _ & _ & _ & Hm & Hp & Ha & Hn & _).
  destruct (written_constants now c r) as (Hm' & Hp' & Ha' & Hn').
  repeat split; congruence.
Qed.

Lemma reachable_constants (r : Room) :
  reachable r ->
  moderation_log r = [] /\
  proximity_chat_enabled r = true /\
  ai_moderation_enabled r = true /\
  ai_note_taking_enabled r = true.
Proof.
  induction 1 as [id nm|r now c _ IH].
  - repeat split; reflexivity.
  - destruct (step_constants r now c) as (Hm & Hp & Ha & Hn).
    destruct IH as (Hm' & Hp' & Ha' & Hn').
    repeat split; congruence.
Qed.

(** * Activity *)

Lemma written_active (now : Time) (c : Command) (r : Room) :
  is_active r = true ->
  is_active (written now c r) = true /\ start_time (written now c r) = start_time r.
Proof.
  intros H. destruct c; cbn [written]; unfold activated;
    cbn [is_active set_next_obj set_participants]; rewrite ?H;
    repeat match goal with
      | |- context [dict_get ?k (participants r)] =>
          destruct (dict_get k (participants r)) eqn:?
      | |- context [if ?b then _ else _] => destruct b eqn:?
      end; split; trivial.
Qed.

Lemma dict_set_not_nil {V : Type} (k : string) (v : V) (d : Dict V) :
  dict_set k v d <> [].
Proof. destruct d as [|[k' v'] d]; simpl; [|destruct (String.eqb k' k)]; discriminate. Qed.

Lemma dict_get_In {V : Type} (k : string) (v : V) (d : Dict V) :
  dict_get k d = Some v -> In (k, v) d.
Proof.
  induction d as [|[k' v'] d IH]; simpl; [discriminate|].
  destruct (String.eqb k' k) eqn:E.
  - apply String.eqb_eq in E. intros [= ->]. left. now subst.
  - auto.
Qed.

Lemma written_session_states (now : Time) (c : Command) (r : Room) :
  session_states r -> session_states (written now c r).
Proof.
  intros [Hoff Hon]. destruct (is_active r) eqn:Ha.
  - destruct (Hon eq_refl) as (Hne & t & Ht).
    destruct (written_active now c r Ha) as [Ha' Hs'].
    split; [congruence|]. intros _. split; [|exists t; congruence].
    destruct c; cbn [written]; unfold activated;
      cbn [is_active set_next_obj set_participants]; rewrite ?Ha;
      repeat match goal with
        | |- context [dict_get ?k (participants r)] =>
            destruct (dict_get k (participants r)) eqn:?
        | |- context [if ?b then _ else _] => destruct b eqn:?
        end; cbn [participants set_participants set_next_obj set_gestures
                  set_video_recording_enabled set_recording_start_time];
      trivial; apply dict_set_not_nil.
  - destruct (Hoff eq_refl) as [Hnil Hnone].
    destruct c; cbn [written]; unfold activated;
      cbn [is_active set_next_obj set_participants]; rewrite ?Ha, ?Hnil;
      cbn [dict_get];
      repeat match goal with
        | |- context [if ?b then _ else _] => destruct b eqn:?
        end;
      split; cbn [is_active participants start_time set_participants set_next_obj
                  set_start_time set_is_active
                  set_video_recording_enabled set_recording_start_time];
      intros; try congruence; try (split; congruence);
      (split; [discriminate|eexists; reflexivity]).
Qed.

Lemma reachable_session_states (r : Room) : reachable r -> session_states r.
Proof.
  induction 1 as [id nm|r now c _ IH].
  - split; cbn; [auto|discriminate].
  - apply (written_session_states now c) in IH.
    destruct (step_fields r now c) as (Hp & _ & Ha & Hs & _).
    unfold session_states. rewrite Hp, Ha, Hs. exact IH.
Qed.

(** * The gesture history *)

Lemma last_n_length {A : Type} (n : nat) (l : list A) :
  (List.length (last_n n l) <= n)%nat.
Proof. unfold last_n. rewrite length_skipn. lia. Qed.

Lemma written_gestures_bounded (now : Time) (c : Command) (r : Room) :
  gestures_bounded r -> gestures_bounded (written now c r).
Proof.
  intros Hb. unfold gestures_bounded.
  destruct c; cbn [written]; unfold activated;
    repeat match goal with
      | |- context [dict_get ?k (participants r)] =>
          destruct (dict_get k (participants r)) as [q|] eqn:Hq
      | |- context [if ?b then _ else _] => destruct b eqn:?
      end;
    cbn [participants set_participants set_next_obj set_gestures set_start_time
         set_is_active set_video_recording_enabled set_recording_start_time];
    trivial; intros k p Hin;
    apply In_dict_set in Hin as [[= -> ->]|Hin]; eauto;
    try (apply dict_get_In in Hq; apply Hb in Hq);
    cbn [recent_gestures new_participant set_vr_position set_is_speaking gestured
         set_recent_gestures List.length]; trivial; try lia;
    apply last_n_length.
Qed.

Lemma reachable_gestures_bounded (r : Room) : reachable r -> gestures_bounded r.
Proof.
  induction 1 as [id nm|r now c _ IH].
  - intros k p [].
  - apply (written_gestures_bounded now c) in IH.
    destruct (step_fields r now c) as (Hp & _).
    unfold gestures_bounded. rewrite Hp. exact IH.
Qed.

(** * The types of the transcript entries *)

Lemma In_transcript_logged (now : Time) (ty : string) (data : Dict PyVal)
    (r : Room) (e : TranscriptEntry) :
  In e (session_transcript (logged now ty data r)) ->
  In e (session_transcript r) \/ entry_type e = ty.
Proof.
  unfold logged. destruct (logging_enabled r); cbn; auto.
  rewrite in_app_iff. intros [H|[<-|[]]]; auto.
Qed.

Lemma proximity_loop_transcript (now : Time) (user_id : string)
    (participant : Participant) (new_pos : VRPosition) (l : Dict Participant)
    (e : TranscriptEntry) :
  forall r,
    In e (session_transcript
            (state (for_each l (proximity_body now user_id participant new_pos) r))) ->
    In e (session_transcript r) \/ entry_type e = "proximity".
Proof.
  induction l as [|[k p] l IH]; intros r; cbn [for_each]; [cbn; auto|].
  rewrite bind_run, proximity_body_run.
  destruct (String.eqb k user_id); cbn [result state after]; [apply IH|].
  destruct (distance_to new_pos (vr_position p)) as [d|ex]; cbn [result state after];
    [|auto].
  destruct (PyFloat.ltb d PyFloat.three && proximity_chat_enabled r);
    cbn [result state after]; [|apply IH].
  intros H. apply IH in H as [H|H]; auto.
  apply In_transcript_logged in H. tauto.
Qed.

Ltac in_types := cbn; repeat first [left; reflexivity | right].

Lemma step_transcript (r : Room) (now : Time) (c : Command) (e : TranscriptEntry) :
  In e (session_transcript (step r (now, c))) ->
  In e (session_transcript r) \/ In (entry_type e) logged_types.
Proof.
  unfold step; cbn [fst snd].
  destruct c as [uid nm lang x y z|uid x y z rx ry rz|uid ty hd i| | | |uid o|];
    cbn [run].
  - rewrite add_participant_run. cbn [state]. intros H.
    apply In_transcript_logged in H as [H|H].
    + left. revert H. unfold activated. cbn [is_active set_next_obj set_participants].
      destruct (is_active r); trivial.
    + right. rewrite H. in_types.
  - rewrite state_forget.
    destruct (dict_get uid (participants r)) as [p|] eqn:E.
    + rewrite (update_participant_position_present now uid x y z rx ry rz r p E).
      cbv zeta.
      match goal with
      | |- In e (session_transcript (state (match result ?l with _ => _ end))) -> _ =>
          replace (state (match result l with
                          | Ok _ => _ | Raise ex => mkOutcome (Raise ex) (state l) (effects l)
                          end)) with (state l)
            by (destruct (result l); reflexivity)
      end.
      intros H. apply proximity_loop_transcript in H as [H|H].
      * apply In_transcript_logged in H as [H|H]; [now left|].
        right. rewrite H. in_types.
      * right. rewrite H. in_types.
    + rewrite update_participant_position_absent by trivial. now left.
  - rewrite state_forget.
    destruct (dict_get uid (participants r)) as [p|] eqn:E.
    + rewrite (perform_gesture_present now uid ty hd i r p E). cbv zeta.
      match goal with
      | |- In e (session_transcript (state (match ?l with _ => _ end))) -> _ =>
          destruct l
      end; cbn [state]; intros H;
        (apply In_transcript_logged in H as [H|H];
         [now left|right; rewrite H; in_types]).
    + rewrite perform_gesture_absent by trivial. now left.
  - rewrite handle_toggle_recording_run. cbv zeta. cbn [state]. intros H.
    apply In_transcript_logged in H as [H|H]; [|right; rewrite H; in_types].
    revert H. destruct (video_recording_enabled r); cbn [negb]; [now left|].
    destruct (session_transcript r) eqn:Et; cbn.
    + intros [<-|[]]. right. in_types.
    + rewrite Et. now left.
  - rewrite state_forget, save_recording_run. now left.
  - rewrite handle_save_recording_run. now left.
  - rewrite stop_speaking_run. cbv zeta. cbn [state written].
    destruct (dict_get uid (participants r)); [destruct (Nat.eqb _ _)|]; now left.
  - rewrite demo_start_recording_run. cbn. intros [<-|[]]. right. in_types.
Qed.

Lemma reachable_transcript_types (r : Room) :
  reachable r ->
  forall e, In e (session_transcript r) -> In (entry_type e) logged_types.
Proof.
  induction 1 as [id nm|r now c _ IH]; intros e He.
  - destruct He.
  - apply step_transcript in He as [He|He]; auto.
Qed.

(* ================================================================= *)
(** * Geometry *)




(* ================================================================= *)
(** * Unknown participants *)

(** C3.  A move of an id that is not in the registry returns [False] and
    does nothing else: the room is the same room (positions, transcript
    and all) and nothing is sent, so no proximity is evaluated. *)
Theorem update_participant_position_unknown (now : Time) (user_id : string)
    (x y z rotation_x rotation_y rotation_z : float) (r : Room) :
  dict_mem user_id (participants r) = false ->
  update_participant_position now user_id x y z rotation_x rotation_y rotation_z r
  = mkOutcome (Ok false) r [].
Proof.
  unfold dict_mem. intros H. apply update_participant_position_absent.
  destruct (dict_get user_id (participants r)); [discriminate|reflexivity].
Qed.

Lemma update_participant_position_unknown_witness :
  let r := step (init "vr" "Room")
             (1, AddParticipant "a" "Alice" ENGLISH
                   (PyFloat.of_Z (-4)) PyFloat.zero PyFloat.zero) in
  update_participant_position 2 "b" PyFloat.one PyFloat.zero PyFloat.zero
    PyFloat.zero PyFloat.zero PyFloat.zero r
  = mkOutcome (Ok false) r [].
Proof.
  intros r. apply (update_participant_position_unknown 2 "b"). reflexivity.
Defined.

(* ================================================================= *)
(** * Saving a recording *)

(** C8.  Both save handlers write the same [recording_data] and leave
    the room as it is.  When the transcript is empty, the transcript of the
    recording is exactly one entry, of type ["info"]; when it is not, it
    is the transcript itself; it is never an empty list. *)
Theorem recording_transcript_placeholder (now : Time) (r : Room) :
  let written_data := recording_data now r in
  save_recording now r = mkOutcome (Ok now) r [file_write now written_data]
  /\ handle_save_recording now r
     = mkOutcome (Ok tt) r
         [file_write now written_data; emit_save_recording_response now]
  /\ (session_transcript r = [] ->
      exists e, rec_transcript written_data = [e] /\ entry_type e = "info")
  /\ (session_transcript r <> [] ->
      rec_transcript written_data = session_transcript r)
  /\ rec_transcript written_data <> [].
Proof.
  intros written_data.
  rewrite save_recording_run, handle_save_recording_run.
  split; [reflexivity|]. split; [reflexivity|].
  unfold written_data, recording_data; cbn [rec_transcript].
  destruct (session_transcript r) as [|e l]; repeat split.
  - intros _. eexists. split; reflexivity.
  - intros H. now destruct H.
  - discriminate.
  - discriminate.
  - discriminate.
Qed.

Lemma recording_transcript_placeholder_witness :
  rec_transcript (recording_data 9 (init "vr" "Room"))
  = [info_entry 9 "No events recorded yet"]
  /\ rec_transcript (recording_data 9 room_a) = session_transcript room_a.
Proof.
  split.
  - reflexivity.
  - apply (proj1 (proj2 (proj2 (proj2
             (recording_transcript_placeholder 9 room_a))))).
    vm_compute. discriminate.
Defined.

(* ================================================================= *)
(** * Joining *)

(** C1, as stated, fails: joining again under the id ["a"] returns
    normally and replaces Alice's entry. *)
Lemma add_participant_duplicate_counterexample :
  let o := add_participant 3 "a" "Bob" TURKISH
             (PyFloat.of_Z 4) (PyFloat.of_Z 0) (PyFloat.of_Z 0) room_a in
  dict_mem "a" (participants room_a) = true /\
  result o = Ok tt /\
  participants (state o) <> participants room_a /\
  option_map name (dict_get "a" (participants room_a)) = Some "Alice" /\
  option_map name (dict_get "a" (participants (state o))) = Some "Bob".
Proof.
  repeat split. vm_compute. discriminate.
Qed.

(** C1 (amended).  [add_participant] makes no check for an id that is
    already present.  The entry of that id is replaced, in its place, by
    the newly built participant (the given name, language and position,
    no gesture, not speaking); the number of participants, the order of
    the ids and the other entries are unchanged; the join is logged and
    announced as any other. *)
Theorem add_participant_duplicate (now : Time) (user_id name : string)
    (preferred_language : Language) (x y z : float) (r : Room) :
  dict_mem user_id (participants r) = true ->
  let o := add_participant now user_id name preferred_language x y z r in
  let p := new_participant now user_id name preferred_language x y z r in
  participants (state o) = dict_set user_id p (participants r)
  /\ dict_get user_id (participants (state o)) = Some p
  /\ List.length (participants (state o)) = List.length (participants r)
  /\ map fst (participants (state o)) = map fst (participants r)
  /\ (forall k, String.eqb user_id k = false ->
        dict_get k (participants (state o)) = dict_get k (participants r))
  /\ session_transcript (state o)
     = session_transcript
         (logged now "user_joined"
            [("user_id", VStr user_id); ("name", VStr name);
             ("language", VStr (Language_value preferred_language))] r)
  /\ effects o
     = [emit_room_update (get_room_state_for_web (state o));
        emit_user_joined name (Language_value preferred_language)].
Proof.
  intros H o p. unfold dict_mem in H.
  destruct (dict_get user_id (participants r)) as [old|] eqn:E; [clear H|discriminate].
  assert (Hp : participants (state o) = dict_set user_id p (participants r)).
  { unfold o. rewrite add_participant_run. cbn [state].
    rewrite (proj1 (logged_fields _ _ _ _)). unfold activated.
    cbn [is_active set_next_obj set_participants].
    destruct (is_active r); reflexivity. }
  rewrite Hp. split; [reflexivity|].
  split; [apply dict_get_set|].
  split; [eapply dict_set_length_present; eassumption|].
  split; [eapply dict_set_keys_present; eassumption|].
  split; [intros k Hk; now apply dict_get_set_other|].
  unfold o. rewrite add_participant_run. cbn [state effects].
  split; [|reflexivity].
  unfold logged, logging_enabled, activated.
  cbn [is_active set_next_obj set_participants].
  destruct (is_active r); simpl;
    destruct (ai_note_taking_enabled r || ai_moderation_enabled r
              || video_recording_enabled r); reflexivity.
Qed.

Lemma add_participant_duplicate_witness :
  let o := add_participant 3 "a" "Bob" TURKISH
             (PyFloat.of_Z 4) (PyFloat.of_Z 0) (PyFloat.of_Z 0) room_a in
  List.length (participants (state o)) = 1%nat /\
  map fst (participants (state o)) = ["a"].
Proof.
  intros o.
  destruct (add_participant_duplicate 3 "a" "Bob" TURKISH
              (PyFloat.of_Z 4) (PyFloat.of_Z 0) (PyFloat.of_Z 0) room_a eq_refl)
    as (_ & _ & Hl & Hk & _).
  split; [exact Hl|exact Hk].
Defined.

(* ================================================================= *)
(** * Proximity *)



Lemma room_ab_reachable : reachable room_ab.
Proof. unfold room_ab, room_a. repeat constructor. Qed.


(* ================================================================= *)
(** * Substrings *)




(* ================================================================= *)
(** * The event log *)

Lemma _check_moderation_run (now : Time) (entry : TranscriptEntry) (r : Room) :
  _check_moderation now entry r
  = if String.eqb (entry_type entry) "chat" then
      match message_lower (entry_data entry) with
      | Raise e => mkOutcome (Raise e) r []
      | Ok message =>
          if any_toxic message then
            let log_entry := moderation_record now (entry_data entry) message in
            mkOutcome (Ok tt)
              (set_moderation_log (moderation_log r ++ [log_entry]) r)
              [emit_moderation_alert log_entry]
          else mkOutcome (Ok tt) r []
      end
    else mkOutcome (Ok tt) r [].
Proof.
  unfold _check_moderation.
  destruct (String.eqb (entry_type entry) "chat"); [|reflexivity].
  destruct (message_lower (entry_data entry)) as [m|e]; mrun; [|reflexivity].
  destruct (any_toxic m); [|reflexivity].
  mrun. reflexivity.
Qed.

Lemma _check_moderation_transcript (now : Time) (entry : TranscriptEntry) (r : Room) :
  session_transcript (state (_check_moderation now entry r)) = session_transcript r.
Proof.
  rewrite _check_moderation_run.
  destruct (String.eqb _ _); [|reflexivity].
  destruct (message_lower _); [|reflexivity].
  destruct (any_toxic _); reflexivity.
Qed.

Lemma app_one_neq {A : Type} (l : list A) (a : A) : (l ++ [a])%list <> l.
Proof.
  intros H. apply (f_equal (@List.length A)) in H.
  rewrite length_app in H. simpl in H. lia.
Qed.

(** ** Case folding *)






Lemma log_event_for_ai_run (now : Time) (event_type : string)
    (data : Dict PyVal) (r : Room) :
  let entry := mkEntry now event_type data in
  let appended := set_session_transcript (session_transcript r ++ [entry]) r in
  log_event_for_ai now event_type data r
  = (if ai_note_taking_enabled r || ai_moderation_enabled r
        || video_recording_enabled r
     then
       if ai_moderation_enabled r && String.eqb event_type "chat"
       then _check_moderation now entry appended
       else mkOutcome (Ok tt) appended []
     else mkOutcome (Ok tt) r []).
Proof.
  intros entry appended. unfold log_event_for_ai. mrun.
  destruct (ai_note_taking_enabled r || ai_moderation_enabled r
            || video_recording_enabled r); cbn [negb]; [|reflexivity].
  mrun. fold entry. fold appended.
  cbn [ai_moderation_enabled appended set_session_transcript].
  destruct (ai_moderation_enabled r); cbn [andb]; [|reflexivity].
  rewrite !_check_moderation_run. cbn [entry_type entry].
  destruct (String.eqb event_type "chat"); reflexivity.
Qed.

(** C4.  [log_event_for_ai] appends the entry exactly when one of the
    three features is on, and is otherwise without any effect; once the
    entry is appended, the keyword check of [_check_moderation] runs
    exactly when moderation is on and the type is ["chat"]. *)
Theorem log_event_for_ai_gate (now : Time) (event_type : string)
    (data : Dict PyVal) (r : Room) :
  let entry := mkEntry now event_type data in
  let appended := set_session_transcript (session_transcript r ++ [entry]) r in
  let o := log_event_for_ai now event_type data r in
  o = (if ai_note_taking_enabled r || ai_moderation_enabled r
          || video_recording_enabled r
       then
         if ai_moderation_enabled r && String.eqb event_type "chat"
         then _check_moderation now entry appended
         else mkOutcome (Ok tt) appended []
       else mkOutcome (Ok tt) r [])
  /\ (session_transcript (state o) = (session_transcript r ++ [entry])%list
      <-> (ai_moderation_enabled r = true \/ ai_note_taking_enabled r = true
           \/ video_recording_enabled r = true))
  /\ (session_transcript (state o) = session_transcript r
      <-> (ai_moderation_enabled r = false /\ ai_note_taking_enabled r = false
           /\ video_recording_enabled r = false)).
Proof.
  intros entry appended o.
  pose proof (log_event_for_ai_run now event_type data r) as Ho.
  cbv zeta in Ho. fold entry appended o in Ho.
  split; [exact Ho|].
  assert (Ht : session_transcript (state o)
               = if ai_note_taking_enabled r || ai_moderation_enabled r
                    || video_recording_enabled r
                 then (session_transcript r ++ [entry])%list
                 else session_transcript r).
  { rewrite Ho.
    destruct (ai_note_taking_enabled r || ai_moderation_enabled r
              || video_recording_enabled r); [|reflexivity].
    destruct (ai_moderation_enabled r && String.eqb event_type "chat");
      [|reflexivity].
    now rewrite _check_moderation_transcript. }
  rewrite Ht.
  pose proof (app_one_neq (session_transcript r) entry) as Hneq.
  destruct (ai_moderation_enabled r), (ai_note_taking_enabled r),
    (video_recording_enabled r); cbn [orb];
    (split; split); try tauto; try congruence; intros; try discriminate;
    intuition congruence.
Qed.



Lemma log_event_for_ai_gate_witness :
  let r := init "vr" "Room" in
  session_transcript (state (log_event_for_ai 7 "gesture" [] r))
  = [mkEntry 7 "gesture" []].
Proof.
  intros r.
  apply (proj2 (proj1 (proj2 (log_event_for_ai_gate 7 "gesture" [] r)))).
  left. reflexivity.
Defined.

(* ================================================================= *)
(** * The gesture history of a participant *)

Lemma last_n_short {A : Type} (n : nat) (l : list A) :
  (List.length l <= n)%nat -> last_n n l = l.
Proof.
  intros H. unfold last_n. replace (List.length l - n)%nat with 0%nat by lia.
  reflexivity.
Qed.


Lemma perform_gesture_participants (now : Time) (user_id gesture_type hand : string)
    (intensity : float) (r : Room) (p : Participant) :
  dict_get user_id (participants r) = Some p ->
  participants (state (perform_gesture now user_id gesture_type hand intensity r))
  = dict_set user_id
      (gestured (mkVRGesture gesture_type hand intensity PyFloat.one now) p)
      (participants r).
Proof.
  intros H.
  destruct (step_fields r now (PerformGesture user_id gesture_type hand intensity))
    as (Hp & _).
  unfold step in Hp. cbn [fst snd run] in Hp. rewrite state_forget in Hp.
  rewrite Hp. cbn [written]. rewrite H. reflexivity.
Qed.




(* ================================================================= *)
(** * The session *)

(** C7.  A new room is inactive, with no start time.  [add_participant]
    on an inactive room makes it active and records the time of the call
    as start time; no other call activates a room.  Once a room is
    active, every call leaves it active with the same start time.  In a
    reachable room inactive means no participant and no start time, and
    active means some participant and a start time. *)
Theorem session_state_machine :
  (forall room_id room_name,
      is_active (init room_id room_name) = false /\
      start_time (init room_id room_name) = None)
  /\ (forall (r : Room) (now : Time) (user_id name : string) (l : Language)
             (x y z : float),
        is_active r = false ->
        let r' := step r (now, AddParticipant user_id name l x y z) in
        is_active r' = true /\ start_time r' = Some now)
  /\ (forall (r : Room) (now : Time) (c : Command),
        match c with
        | AddParticipant _ _ _ _ _ _ => True
        | _ => is_active (step r (now, c)) = is_active r /\
               start_time (step r (now, c)) = start_time r
        end)
  /\ (forall (r : Room) (now : Time) (c : Command),
        is_active r = true ->
        is_active (step r (now, c)) = true /\
        start_time (step r (now, c)) = start_time r)
  /\ (forall r : Room, reachable r ->
        (is_active r = false -> participants r = [] /\ start_time r = None) /\
        (is_active r = true ->
           participants r <> [] /\ exists t, start_time r = Some t)).
Proof.
  split; [intros; split; reflexivity|]. split; [|split; [|split]].
  - intros r now uid nm l x y z Ha r'.
    destruct (step_fields r now (AddParticipant uid nm l x y z))
      as (_ & _ & Ha' & Hs' & _).
    fold r' in Ha', Hs'. rewrite Ha', Hs'. cbn [written]. unfold activated.
    cbn [is_active set_next_obj set_participants]. rewrite Ha. split; reflexivity.
  - intros r now c.
    destruct (step_fields r now c) as (_ & _ & Ha' & Hs' & _).
    destruct c; trivial; rewrite Ha', Hs'; cbn [written];
      repeat match goal with
        | |- context [dict_get ?k (participants r)] =>
            destruct (dict_get k (participants r))
        | |- context [if ?b then _ else _] => destruct b
        end; split; reflexivity.
  - intros r now c Ha.
    destruct (step_fields r now c) as (_ & _ & Ha' & Hs' & _).
    rewrite Ha', Hs'. now apply written_active.
  - exact reachable_session_states.
Qed.

Lemma session_state_machine_witness :
  is_active room_ab = true /\ start_time room_ab = start_time room_a.
Proof.
  unfold room_ab.
  apply (proj1 (proj2 (proj2 (proj2 session_state_machine)))).
  vm_compute. reflexivity.
Defined.

(* ================================================================= *)
(** * Moderation and the calls of the program *)

(** C10.  [_check_moderation] does nothing to an entry whose type is not
    ["chat"]; no call of the program changes the moderation log; in a
    reachable room no transcript entry has type ["chat"] and the
    moderation log is empty. *)
Theorem moderation_log_stays_empty :
  (forall (now : Time) (entry : TranscriptEntry) (r : Room),
      entry_type entry <> "chat" ->
      _check_moderation now entry r = mkOutcome (Ok tt) r [])
  /\ (forall (r : Room) (now : Time) (c : Command),
        moderation_log (step r (now, c)) = moderation_log r)
  /\ (forall r : Room, reachable r ->
        (forall e, In e (session_transcript r) -> entry_type e <> "chat") /\
        moderation_log r = []).
Proof.
  split; [|split].
  - intros now entry r H. rewrite _check_moderation_run.
    apply String.eqb_neq in H. now rewrite H.
  - intros r now c. apply step_constants.
  - intros r Hr. split; [|apply (reachable_constants r Hr)].
    intros e He Hchat. apply (reachable_transcript_types r Hr) in He.
    rewrite Hchat in He. cbn in He.
    repeat (destruct He as [He|He]; [discriminate|]). destruct He.
Qed.

Lemma moves_reachable :
  reachable (step (step room_ab
     (3, UpdateParticipantPosition "b" (PyFloat.of_Z 1) (PyFloat.of_Z 0)
           (PyFloat.of_Z 0) (PyFloat.of_Z 0) (PyFloat.of_Z 0) (PyFloat.of_Z 0)))
     (4, UpdateParticipantPosition "b" (PyFloat.of_Z (-3)) (PyFloat.of_Z 0)
           (PyFloat.of_Z 0) (PyFloat.of_Z 0) (PyFloat.of_Z 0) (PyFloat.of_Z 0))).
Proof. do 2 apply reachable_step. exact room_ab_reachable. Qed.

Lemma moderation_log_stays_empty_witness :
  moderation_log (step (step room_ab
     (3, UpdateParticipantPosition "b" (PyFloat.of_Z 1) (PyFloat.of_Z 0)
           (PyFloat.of_Z 0) (PyFloat.of_Z 0) (PyFloat.of_Z 0) (PyFloat.of_Z 0)))
     (4, UpdateParticipantPosition "b" (PyFloat.of_Z (-3)) (PyFloat.of_Z 0)
           (PyFloat.of_Z 0) (PyFloat.of_Z 0) (PyFloat.of_Z 0) (PyFloat.of_Z 0)))
  = [].
Proof.
  apply (proj2 (proj2 moderation_log_stays_empty)). exact moves_reachable.
Defined.

(* ================================================================= *)
(** * Further properties of the room *)

(* ================================================================= *)
(** * The registry across calls *)

Lemma existsb_eqb_In (k : string) (ks : list string) :
  existsb (String.eqb k) ks = true <-> In k ks.
Proof.
  rewrite existsb_exists. split.
  - intros (k' & Hin & Hk). apply String.eqb_eq in Hk. now subst.
  - intros Hin. exists k. split; [exact Hin|apply String.eqb_refl].
Qed.

Lemma map_fst_dict_set {V : Type} (k : string) (v : V) (d : Dict V) :
  map fst (dict_set k v d) = add_key k (map fst d).
Proof.
  unfold add_key. induction d as [|[k' v'] d IH]; cbn [dict_set map fst existsb].
  - reflexivity.
  - rewrite (String.eqb_sym k k').
    destruct (String.eqb k' k) eqn:E; cbn [map fst orb].
    + apply String.eqb_eq in E. now subst.
    + rewrite IH. now destruct (existsb (String.eqb k) (map fst d)).
Qed.

Lemma dict_get_None_not_In {V : Type} (k : string) (d : Dict V) :
  dict_get k d = None <-> ~ In k (map fst d).
Proof.
  induction d as [|[k' v'] d IH]; cbn [dict_get map fst In]; [tauto|].
  destruct (String.eqb k' k) eqn:E.
  - apply String.eqb_eq in E. split; [discriminate|]. intros H. destruct H. now left.
  - apply String.eqb_neq in E. rewrite IH. tauto.
Qed.

Lemma map_dict_set_same {V W : Type} (f : string * V -> W) (k : string)
    (v v' : V) (d : Dict V) :
  dict_get k d = Some v -> f (k, v') = f (k, v) ->
  map f (dict_set k v' d) = map f d.
Proof.
  intros Hget Hf. induction d as [|[k0 v0] d IH]; [discriminate|].
  cbn [dict_get] in Hget. cbn [dict_set].
  destruct (String.eqb k0 k) eqn:E.
  - apply String.eqb_eq in E. injection Hget as ->. subst k0.
    cbn [map]. now rewrite Hf.
  - cbn [map]. now rewrite IH.
Qed.

Lemma step_keys (r : Room) (c : Time * Command) :
  map fst (participants (step r c)) = keys_step (map fst (participants r)) c.
Proof.
  destruct c as [now c].
  rewrite (proj1 (step_fields r now c)). unfold keys_step. cbn [snd].
  destruct c; cbn [written]; unfold activated;
    repeat match goal with
      | |- context [dict_get ?k (participants r)] =>
          destruct (dict_get k (participants r)) eqn:?
      | |- context [if ?b then _ else _] => destruct b eqn:?
      end;
    cbn [participants set_participants set_next_obj set_gestures set_start_time
         set_is_active set_video_recording_enabled set_recording_start_time];
    trivial;
    first [ apply map_fst_dict_set
          | eapply dict_set_keys_present; eassumption ].
Qed.

Lemma run_all_keys (cs : list (Time * Command)) :
  forall r, map fst (participants (run_all cs r))
            = fold_left keys_step cs (map fst (participants r)).
Proof.
  unfold run_all. induction cs as [|c cs IH]; intros r; cbn [fold_left].
  - reflexivity.
  - now rewrite IH, step_keys.
Qed.

Lemma joins_keys (cs : list (Time * Command)) :
  forall ks ids,
    map joined_id cs = map Some ids ->
    NoDup (ks ++ ids) ->
    fold_left keys_step cs ks = (ks ++ ids)%list.
Proof.
  induction cs as [|[now c] cs IH]; intros ks ids Hids Hnd.
  - destruct ids; [|discriminate]. cbn. now rewrite app_nil_r.
  - destruct ids as [|k ids]; [discriminate|].
    cbn [map] in Hids. injection Hids as Hk Hids.
    cbn [fold_left]. unfold keys_step at 2. unfold joined_id in Hk.
    cbn [snd] in *. destruct c; try discriminate. injection Hk as ->.
    assert (Hnot : ~ In k ks).
    { intros Hin. apply NoDup_remove_2 in Hnd. apply Hnd.
      apply in_or_app. now left. }
    unfold add_key.
    destruct (existsb (String.eqb k) ks) eqn:E;
      [apply existsb_eqb_In in E; contradiction|].
    rewrite (IH (ks ++ [k])%list ids Hids).
    + now rewrite <- app_assoc.
    + now rewrite <- app_assoc.
Qed.

(** X1.  The ids of the registry, in order, depend on the joins alone:
    every call other than a join leaves them as they are, and a join adds
    its id at the end unless it is there already.  Hence after any
    sequence of joins under distinct ids on a new room, the registry
    holds exactly those ids, in the order of the joins, and the view
    counts as many participants as there were joins. *)
Theorem registry_keys_of_joins :
  (forall (cs : list (Time * Command)) (r : Room),
      map fst (participants (run_all cs r))
      = fold_left keys_step cs (map fst (participants r)))
  /\ (forall (cs : list (Time * Command)) (ids : list string)
             (room_id room_name : string),
        map joined_id cs = map Some ids ->
        NoDup ids ->
        let r := run_all cs (init room_id room_name) in
        map fst (participants r) = ids /\
        participant_count (get_room_state_for_web r) = List.length cs).
Proof.
  split; [exact run_all_keys|].
  intros cs ids rid rnm Hids Hnd r.
  assert (Hk : map fst (participants r) = ids).
  { unfold r. rewrite run_all_keys. cbn [init participants map].
    now rewrite (joins_keys cs [] ids Hids Hnd). }
  split; [exact Hk|].
  cbn [get_room_state_for_web participant_count].
  rewrite <- (length_map fst), Hk.
  rewrite <- (length_map Some ids), <- Hids. apply length_map.
Qed.

Lemma registry_keys_of_joins_witness :
  map fst
    (participants
       (run_all
          [(1%nat, AddParticipant "a" "Alice" ENGLISH
                     (PyFloat.of_Z (-4)) (PyFloat.of_Z 0) (PyFloat.of_Z 0));
           (2%nat, AddParticipant "b" "Bob" TURKISH
                     (PyFloat.of_Z 4) (PyFloat.of_Z 0) (PyFloat.of_Z 0))]
          (init "vr" "Room")))
  = ["a"; "b"].
Proof.
  assert (Hnd : NoDup ["a"; "b"]).
  { repeat constructor; cbn; intuition discriminate. }
  exact (proj1 (proj2 registry_keys_of_joins
                  [(1%nat, AddParticipant "a" "Alice" ENGLISH
                             (PyFloat.of_Z (-4)) (PyFloat.of_Z 0) (PyFloat.of_Z 0));
                   (2%nat, AddParticipant "b" "Bob" TURKISH
                             (PyFloat.of_Z 4) (PyFloat.of_Z 0) (PyFloat.of_Z 0))]
                  ["a"; "b"] "vr" "Room" eq_refl Hnd)).
Defined.

(* ================================================================= *)
(** * The shape of the registry *)

Lemma NoDup_add_key (k : string) (ks : list string) :
  NoDup ks -> NoDup (add_key k ks).
Proof.
  intros H. unfold add_key.
  destruct (existsb (String.eqb k) ks) eqn:E; [exact H|].
  apply NoDup_app; [exact H|repeat constructor; intros []|].
  intros a Ha [<-|[]].
  apply existsb_eqb_In in Ha. congruence.
Qed.

Lemma NoDup_map_dict_set {V W : Type} (f : string * V -> W) (k : string)
    (v : V) (d : Dict V) :
  NoDup (map f d) ->
  (forall kv, In kv d -> f kv <> f (k, v)) ->
  NoDup (map f (dict_set k v d)).
Proof.
  induction d as [|[k0 v0] d IH]; intros Hnd Hfresh; cbn [dict_set].
  - cbn. repeat constructor. intros [].
  - cbn [map] in Hnd. apply NoDup_cons_iff in Hnd as [Hnin Hnd].
    destruct (String.eqb k0 k); cbn [map]; apply NoDup_cons_iff; split.
    + intros Hin. apply in_map_iff in Hin as (kv & Hf & Hin).
      apply (Hfresh kv); [now right|exact Hf].
    + exact Hnd.
    + intros Hin. apply in_map_iff in Hin as ([k1 v1] & Hf & Hin).
      apply In_dict_set in Hin as [[= -> ->]|Hin].
      * apply (Hfresh (k0, v0)); [now left|now symmetry].
      * apply Hnin. rewrite <- Hf. now apply in_map.
    + apply IH; [exact Hnd|]. intros kv Hin. apply Hfresh. now right.
Qed.

Lemma written_registry_ok (now : Time) (c : Command) (r : Room) :
  registry_ok r -> registry_ok (written now c r).
Proof.
  intros Hok. pose proof Hok as (Hk & Ho & Hin).
  assert (Hsame : forall k p p',
             dict_get k (participants r) = Some p ->
             user_id p' = user_id p -> obj p' = obj p ->
             registry_ok (set_participants (dict_set k p' (participants r)) r)).
  { intros k p p' Hget Hu Hob. unfold registry_ok.
    cbn [participants set_participants next_obj].
    split; [now rewrite (dict_set_keys_present k p' p _ Hget)|].
    split; [rewrite (map_dict_set_same _ k p p' _ Hget); [exact Ho|exact Hob]|].
    intros k' q Hq. apply In_dict_set in Hq as [[= -> ->]|Hq]; [|now apply Hin].
    apply dict_get_In in Hget. destruct (Hin _ _ Hget) as [Hu' Hlt].
    split; congruence. }
  destruct c as [uid nm lang x y z|uid x y z rx ry rz|uid ty hd i| | | |uid o|];
    cbn [written].
  - assert (Hadd : registry_ok
                     (set_next_obj (S (next_obj r))
                        (set_participants
                           (dict_set uid (new_participant now uid nm lang x y z r)
                              (participants r)) r))).
    { unfold registry_ok. cbn [participants set_participants set_next_obj next_obj].
      split; [rewrite map_fst_dict_set; now apply NoDup_add_key|].
      split.
      - apply NoDup_map_dict_set; [exact Ho|].
        intros [k p] Hp. cbn [snd obj new_participant].
        destruct (Hin _ _ Hp) as [_ Hlt]. lia.
      - intros k p Hp. apply In_dict_set in Hp as [[= -> ->]|Hp].
        + cbn [user_id obj new_participant]. split; [reflexivity|lia].
        + destruct (Hin _ _ Hp) as [Hu Hlt]. split; [exact Hu|lia]. }
    unfold activated. cbn [is_active set_next_obj set_participants].
    destruct (is_active r); exact Hadd.
  - destruct (dict_get uid (participants r)) as [p|] eqn:E;
      [|exact Hok].
    now apply (Hsame uid p).
  - destruct (dict_get uid (participants r)) as [p|] eqn:E;
      [|exact Hok].
    exact (Hsame uid p (gestured (mkVRGesture ty hd i PyFloat.one now) p)
             E eq_refl eq_refl).
  - destruct (video_recording_enabled r); exact Hok.
  - exact Hok.
  - exact Hok.
  - destruct (dict_get uid (participants r)) as [p|] eqn:E;
      [|exact Hok].
    destruct (Nat.eqb (obj p) o); [|exact Hok].
    now apply (Hsame uid p).
  - exact Hok.
Qed.

Lemma reachable_registry_ok (r : Room) : reachable r -> registry_ok r.
Proof.
  induction 1 as [id nm|r now c _ IH].
  - split; [constructor|]. split; [constructor|]. intros k p [].
  - apply (written_registry_ok now c) in IH.
    destruct (step_fields r now c) as (Hp & _ & _ & _ & _ & _ & _ & _ & _ & Hn).
    unfold registry_ok. rewrite Hp, Hn. exact IH.
Qed.

Lemma In_NoDup_dict_get {V : Type} (k : string) (v : V) (d : Dict V) :
  NoDup (map fst d) -> In (k, v) d -> dict_get k d = Some v.
Proof.
  induction d as [|[k0 v0] d IH]; intros Hnd Hin; [destruct Hin|].
  cbn [map fst] in Hnd. apply NoDup_cons_iff in Hnd as [Hnin Hnd].
  cbn [dict_get]. destruct Hin as [[= -> ->]|Hin].
  - now rewrite String.eqb_refl.
  - destruct (String.eqb k0 k) eqn:E.
    + apply String.eqb_eq in E. subst k0. destruct Hnin.
      now apply (in_map fst) in Hin.
    + now apply IH.
Qed.

(** X2.  In every reachable room the registry holds each id once, every
    participant is filed under its own [user_id], a lookup by id finds
    each entry, and no two entries are the same participant object. *)
Theorem registry_well_formed (r : Room) :
  reachable r ->
  NoDup (map fst (participants r))
  /\ (forall k p, In (k, p) (participants r) ->
        user_id p = k /\ dict_get k (participants r) = Some p)
  /\ NoDup (map (fun kv => obj (snd kv)) (participants r))
  /\ (forall k p, In (k, p) (participants r) -> (obj p < next_obj r)%nat).
Proof.
  intros Hr. destruct (reachable_registry_ok r Hr) as (Hk & Ho & Hin).
  split; [exact Hk|]. split; [|split; [exact Ho|]].
  - intros k p Hp. split; [apply (Hin k p Hp)|now apply In_NoDup_dict_get].
  - intros k p Hp. apply (Hin k p Hp).
Qed.

Lemma registry_well_formed_witness :
  NoDup (map fst (participants room_ab)).
Proof. exact (proj1 (registry_well_formed room_ab room_ab_reachable)). Defined.

(* ================================================================= *)
(** * Gestures *)


(** X3.  A gesture of an id that is not in the registry returns [False]
    and does nothing else: no gesture is recorded, nobody is marked as
    speaking, no timer is started and nothing is sent. *)
Theorem perform_gesture_unknown (now : Time) (user_id gesture_type hand : string)
    (intensity : float) (r : Room) :
  dict_mem user_id (participants r) = false ->
  perform_gesture now user_id gesture_type hand intensity r
  = mkOutcome (Ok false) r [].
Proof.
  unfold dict_mem. intros H. apply perform_gesture_absent.
  destruct (dict_get user_id (participants r)); [discriminate|reflexivity].
Qed.

Lemma perform_gesture_unknown_witness :
  perform_gesture 3 "zoe" "wave" "right" PyFloat.one (init "vr" "Room")
  = mkOutcome (Ok false) (init "vr" "Room") [].
Proof. apply perform_gesture_unknown. reflexivity. Defined.



(* ================================================================= *)
(** * The timer that ends speaking *)

(** X5.  When the timer of a gesture fires while its participant object is
    still in the registry, that participant stops speaking and nothing
    else in the room changes; this holds for the timer of an earlier
    gesture too, which so ends the speaking that a later gesture began.
    A timer whose participant was replaced by a later join under the same
    id changes nothing in the room. *)
Theorem stop_speaking_effect :
  (forall (r : Room) (user_id : string) (p : Participant),
      dict_get user_id (participants r) = Some p ->
      state (stop_speaking user_id (obj p) r)
      = set_participants
          (dict_set user_id (set_is_speaking false p) (participants r)) r)
  /\ (forall (r : Room) (t1 t2 : Time) (user_id g1 h1 g2 h2 : string)
             (i1 i2 : float) (p : Participant),
        dict_get user_id (participants r) = Some p ->
        let r1 := state (perform_gesture t1 user_id g1 h1 i1 r) in
        let r2 := state (perform_gesture t2 user_id g2 h2 i2 r1) in
        option_map is_speaking (dict_get user_id (participants r2)) = Some true /\
        option_map is_speaking
          (dict_get user_id (participants (state (stop_speaking user_id (obj p) r2))))
        = Some false)
  /\ (forall (r : Room) (now : Time) (user_id name : string) (l : Language)
             (x y z : float) (p : Participant),
        reachable r ->
        dict_get user_id (participants r) = Some p ->
        let r' := step r (now, AddParticipant user_id name l x y z) in
        state (stop_speaking user_id (obj p) r') = r').
Proof.
  split; [|split].
  - intros r uid p Hp. rewrite stop_speaking_run. cbn [state written].
    now rewrite Hp, Nat.eqb_refl.
  - intros r t1 t2 uid g1 h1 g2 h2 i1 i2 p Hp r1 r2.
    assert (H1 : dict_get uid (participants r1)
                 = Some (gestured (mkVRGesture g1 h1 i1 PyFloat.one t1) p)).
    { unfold r1. rewrite (perform_gesture_participants t1 uid g1 h1 i1 r p Hp).
      apply dict_get_set. }
    assert (H2 : dict_get uid (participants r2)
                 = Some (gestured (mkVRGesture g2 h2 i2 PyFloat.one t2)
                           (gestured (mkVRGesture g1 h1 i1 PyFloat.one t1) p))).
    { unfold r2. rewrite (perform_gesture_participants t2 uid g2 h2 i2 r1 _ H1).
      apply dict_get_set. }
    split; [now rewrite H2|].
    rewrite stop_speaking_run. cbn [state written]. rewrite H2.
    cbn [obj gestured set_is_speaking set_recent_gestures].
    rewrite Nat.eqb_refl. cbn [participants set_participants].
    now rewrite dict_get_set.
  - intros r now uid nm l x y z p Hr Hp r'.
    destruct (reachable_registry_ok r Hr) as (_ & _ & Hin).
    destruct (Hin uid p (dict_get_In _ _ _ Hp)) as [_ Hlt].
    assert (Hnew : dict_get uid (participants r')
                   = Some (new_participant now uid nm l x y z r)).
    { unfold r'. rewrite (proj1 (step_fields r now _)). cbn [written].
      unfold activated. cbn [is_active set_next_obj set_participants].
      destruct (is_active r); cbn [participants set_participants set_next_obj
                                   set_start_time set_is_active];
        apply dict_get_set. }
    rewrite stop_speaking_run. cbn [state written]. rewrite Hnew.
    cbn [obj new_participant].
    destruct (Nat.eqb (next_obj r) (obj p)) eqn:E; [|reflexivity].
    apply Nat.eqb_eq in E. lia.
Qed.

Lemma stop_speaking_effect_witness :
  state (stop_speaking "a"
           (obj (new_participant 1 "a" "Alice" ENGLISH (PyFloat.of_Z (-4))
                   (PyFloat.of_Z 0) (PyFloat.of_Z 0)
                   (init "vr_multilingual" "Global Localization Project Kickoff")))
           (step room_a (3%nat, AddParticipant "a" "Ann" FRENCH
                                  (PyFloat.of_Z 0) (PyFloat.of_Z 0) (PyFloat.of_Z 0))))
  = step room_a (3%nat, AddParticipant "a" "Ann" FRENCH
                          (PyFloat.of_Z 0) (PyFloat.of_Z 0) (PyFloat.of_Z 0)).
Proof.
  apply (proj2 (proj2 stop_speaking_effect) room_a 3%nat "a" "Ann" FRENCH).
  - unfold room_a. apply reachable_step, reachable_init.
  - reflexivity.
Defined.

(* ================================================================= *)
(** * The gestures of the room *)

Lemma In_last_n {A : Type} (n : nat) (l : list A) (a : A) :
  In a (last_n n l) -> In a l.
Proof.
  unfold last_n. intros H. rewrite <- (firstn_skipn (List.length l - n) l).
  apply in_or_app. now right.
Qed.

Lemma written_gestures (now : Time) (c : Command) (r : Room) :
  exists more, gestures (written now c r) = (gestures r ++ more)%list
               /\ (List.length more <= 1)%nat.
Proof.
  destruct c; cbn [written]; unfold activated;
    repeat match goal with
      | |- context [dict_get ?k (participants r)] =>
          destruct (dict_get k (participants r)) eqn:?
      | |- context [if ?b then _ else _] => destruct b eqn:?
      end;
    cbn [gestures set_participants set_next_obj set_gestures set_start_time
         set_is_active set_video_recording_enabled set_recording_start_time];
    first [ eexists; split; [reflexivity|cbn; lia]
          | exists []; split; [now rewrite app_nil_r|cbn; lia] ].
Qed.

Lemma written_recent_in_log (now : Time) (c : Command) (r : Room) :
  recent_in_log r -> recent_in_log (written now c r).
Proof.
  intros H.
  destruct c as [uid nm lang x y z|uid x y z rx ry rz|uid ty hd i| | | |uid o|];
    cbn [written].
  - unfold activated. cbn [is_active set_next_obj set_participants].
    destruct (is_active r); intros k p g Hin Hg;
      cbn [participants gestures set_participants set_next_obj set_start_time
           set_is_active] in *;
      (apply In_dict_set in Hin as [[= -> ->]|Hin]; [destruct Hg|eauto]).
  - destruct (dict_get uid (participants r)) as [q|] eqn:Hq; [|exact H].
    intros k p g Hin Hg. cbn [participants gestures set_participants] in *.
    apply dict_get_In in Hq.
    apply In_dict_set in Hin as [[= -> ->]|Hin]; eauto.
  - destruct (dict_get uid (participants r)) as [q|] eqn:Hq; [|exact H].
    intros k p g Hin Hg.
    cbn [participants gestures set_participants set_gestures] in *.
    apply dict_get_In in Hq. apply in_or_app.
    apply In_dict_set in Hin as [[= -> ->]|Hin]; [|left; eauto].
    cbn [recent_gestures gestured set_is_speaking set_recent_gestures] in Hg.
    apply In_last_n in Hg. apply in_app_or in Hg as [Hg|Hg]; [left; eauto|now right].
  - destruct (video_recording_enabled r); exact H.
  - exact H.
  - exact H.
  - destruct (dict_get uid (participants r)) as [q|] eqn:Hq; [|exact H].
    destruct (Nat.eqb (obj q) o); [|exact H].
    intros k p g Hin Hg. cbn [participants gestures set_participants] in *.
    apply dict_get_In in Hq.
    apply In_dict_set in Hin as [[= -> ->]|Hin]; eauto.
  - exact H.
Qed.

Lemma reachable_recent_in_log (r : Room) : reachable r -> recent_in_log r.
Proof.
  induction 1 as [id nm|r now c _ IH].
  - intros k p g [].
  - apply (written_recent_in_log now c) in IH.
    destruct (step_fields r now c) as (Hp & Hg & _).
    unfold recent_in_log. rewrite Hp, Hg. exact IH.
Qed.

(** X6.  The gestures of the room are only ever appended to: every call
    leaves the earlier gestures in place and adds at most one.  In every
    reachable room each gesture in the history of a participant is also in
    the gestures of the room. *)
Theorem gestures_append_only :
  (forall (r : Room) (now : Time) (c : Command),
      exists more,
        gestures (step r (now, c)) = (gestures r ++ more)%list
        /\ (List.length more <= 1)%nat)
  /\ (forall r : Room, reachable r ->
        forall k p g, In (k, p) (participants r) ->
                      In g (recent_gestures p) -> In g (gestures r)).
Proof.
  split.
  - intros r now c. rewrite (proj1 (proj2 (step_fields r now c))).
    apply written_gestures.
  - exact reachable_recent_in_log.
Qed.

Lemma gestures_append_only_witness :
  In (mkVRGesture "wave" "right" PyFloat.one PyFloat.one 5)
     (gestures (step room_a (5%nat, PerformGesture "a" "wave" "right" PyFloat.one))).
Proof.
  apply (proj2 gestures_append_only
           (step room_a (5%nat, PerformGesture "a" "wave" "right" PyFloat.one))
           (reachable_step room_a 5%nat _
              (reachable_step _ 1%nat _
                 (reachable_init "vr_multilingual"
                    "Global Localization Project Kickoff")))
           "a"
           (gestured (mkVRGesture "wave" "right" PyFloat.one PyFloat.one 5)
              (new_participant 1 "a" "Alice" ENGLISH (PyFloat.of_Z (-4))
                 (PyFloat.of_Z 0) (PyFloat.of_Z 0)
                 (init "vr_multilingual" "Global Localization Project Kickoff")))).
  - vm_compute. left. reflexivity.
  - vm_compute. left. reflexivity.
Defined.

(* ================================================================= *)
(** * The transcript across calls *)

Lemma extends_refl {A : Type} (l : list A) : extends l l.
Proof. exists []. now rewrite app_nil_r. Qed.

Lemma extends_trans {A : Type} (l1 l2 l3 : list A) :
  extends l1 l2 -> extends l2 l3 -> extends l1 l3.
Proof.
  intros [m1 ->] [m2 ->]. exists (m1 ++ m2)%list. now rewrite app_assoc.
Qed.

Lemma extends_nil {A : Type} (l : list A) : extends l [] -> l = [].
Proof. intros [m H]. symmetry in H. now apply app_eq_nil in H. Qed.

Lemma transcript_logged (now : Time) (ty : string) (data : Dict PyVal) (r : Room) :
  session_transcript (logged now ty data r)
  = (session_transcript r
     ++ if logging_enabled r then [mkEntry now ty data] else [])%list.
Proof.
  unfold logged. destruct (logging_enabled r); cbn; [reflexivity|].
  now rewrite app_nil_r.
Qed.


Lemma extends_logged (now : Time) (ty : string) (data : Dict PyVal) (r : Room) :
  extends (session_transcript r) (session_transcript (logged now ty data r)).
Proof. rewrite transcript_logged. eexists. reflexivity. Qed.

Lemma proximity_loop_extends (now : Time) (user_id : string)
    (participant : Participant) (new_pos : VRPosition) (l : Dict Participant) :
  forall r,
    extends (session_transcript r)
      (session_transcript
         (state (for_each l (proximity_body now user_id participant new_pos) r))).
Proof.
  induction l as [|[k p] l IH]; intros r; cbn [for_each]; [apply extends_refl|].
  rewrite bind_run, proximity_body_run.
  destruct (String.eqb k user_id); cbn [result state after]; [apply IH|].
  destruct (distance_to new_pos (vr_position p)) as [d|ex]; cbn [result state after];
    [|apply extends_refl].
  destruct (PyFloat.ltb d PyFloat.three && proximity_chat_enabled r);
    cbn [result state after]; [|apply IH].
  eapply extends_trans; [apply extends_logged|apply IH].
Qed.


Lemma state_of_move (now : Time) (user_id : string) (x y z rx ry rz : float)
    (r : Room) (p : Participant) :
  dict_get user_id (participants r) = Some p ->
  let new_pos := mkVRPosition x y z rx ry rz in
  let p' := set_vr_position new_pos p in
  let r1 :=
    logged now "position_update"
      [("user_id", VStr user_id);
       ("position", VDict (xyz x y z));
       ("rotation", VDict (xyz rx ry rz))]
      (set_participants (dict_set user_id p' (participants r)) r) in
  let loop :=
    for_each (dict_set user_id p' (participants r))
      (proximity_body now user_id p' new_pos) r1 in
  let o := update_participant_position now user_id x y z rx ry rz r in
  state o = state loop
  /\ (result o = Ok true -> result loop = Ok tt)
  /\ (result o = Ok true ->
      effects o
      = (effects loop ++ [emit_position_update user_id (x, y, z) (rx, ry, rz)])%list).
Proof.
  intros Hp new_pos p' r1 loop o. unfold o.
  rewrite (update_participant_position_present now user_id x y z rx ry rz r p Hp).
  cbv zeta. fold new_pos. fold p'. fold r1. fold loop.
  destruct (result loop) as [[]|e]; cbn [state result effects];
    repeat split; trivial; discriminate.
Qed.

(* ================================================================= *)
(** * Moves *)

(** X7.  A move of a participant of the registry, whether it returns or
    ends in an exception, stores exactly the new position and rotation
    for that participant and changes nothing else in the room but the
    transcript: every other participant, the gestures and the flags are
    as before.  When it returns, the [position_update] with the new
    coordinates is the last thing sent. *)
Theorem update_participant_position_writes (now : Time) (user_id : string)
    (x y z rotation_x rotation_y rotation_z : float) (r : Room) (p : Participant) :
  dict_get user_id (participants r) = Some p ->
  let new_pos := mkVRPosition x y z rotation_x rotation_y rotation_z in
  let o := update_participant_position now user_id
             x y z rotation_x rotation_y rotation_z r in
  but_transcript (state o)
  = but_transcript
      (set_participants
         (dict_set user_id (set_vr_position new_pos p) (participants r)) r)
  /\ (exists p',
        dict_get user_id (participants (state o)) = Some p' /\
        vr_position p' = new_pos /\
        name p' = name p /\ recent_gestures p' = recent_gestures p /\
        is_speaking p' = is_speaking p /\ obj p' = obj p)
  /\ (forall k, String.eqb user_id k = false ->
        dict_get k (participants (state o)) = dict_get k (participants r))
  /\ (result o = Ok true ->
      exists before,
        effects o
        = (before ++ [emit_position_update user_id (x, y, z)
                        (rotation_x, rotation_y, rotation_z)])%list).
Proof.
  intros Hp new_pos o.
  destruct (state_of_move now user_id x y z rotation_x rotation_y rotation_z r p Hp)
    as (Hst & _ & Heff).
  cbv zeta in Hst, Heff. fold new_pos in Hst, Heff. fold o in Hst, Heff.
  assert (Hb : but_transcript (state o)
               = but_transcript
                   (set_participants
                      (dict_set user_id (set_vr_position new_pos p)
                         (participants r)) r)).
  { rewrite Hst, proximity_loop_frame. apply but_transcript_logged. }
  assert (Hps : participants (state o)
                = dict_set user_id (set_vr_position new_pos p) (participants r)).
  { apply (but_transcript_fields _ _ Hb). }
  split; [exact Hb|]. split; [|split].
  - exists (set_vr_position new_pos p). rewrite Hps.
    split; [apply dict_get_set|now repeat split].
  - intros k Hk. rewrite Hps. now apply dict_get_set_other.
  - intros Hres. eexists. exact (Heff Hres).
Qed.

Lemma update_participant_position_writes_witness :
  option_map vr_position
    (dict_get "b" (participants (state (move 3 "b" 1 room_ab))))
  = Some (mkVRPosition (PyFloat.of_Z 1) (PyFloat.of_Z 0) (PyFloat.of_Z 0)
            (PyFloat.of_Z 0) (PyFloat.of_Z 0) (PyFloat.of_Z 0)).
Proof.
  unfold move.
  destruct (update_participant_position_writes 3 "b"
              (PyFloat.of_Z 1) (PyFloat.of_Z 0) (PyFloat.of_Z 0)
              (PyFloat.of_Z 0) (PyFloat.of_Z 0) (PyFloat.of_Z 0) room_ab
              (new_participant 2 "b" "Bob" TURKISH (PyFloat.of_Z 4) (PyFloat.of_Z 0)
                 (PyFloat.of_Z 0) room_a) eq_refl)
    as (_ & (p' & Hget & Hpos & _) & _).
  rewrite Hget. cbn [option_map]. now rewrite Hpos.
Defined.



(* ================================================================= *)
(** * What the calls append to the transcript *)

Lemma filter_is_gesture_logged (now : Time) (ty : string) (data : Dict PyVal)
    (b : bool) :
  String.eqb ty "gesture" = false ->
  filter is_gesture (if b then [mkEntry now ty data] else []) = [].
Proof.
  intros H. destruct b; [|reflexivity].
  cbn [filter]. unfold is_gesture. cbn [entry_type]. now rewrite H.
Qed.

Lemma proximity_loop_appends (now : Time) (user_id : string)
    (participant : Participant) (new_pos : VRPosition) (l : Dict Participant) :
  forall r,
    exists more,
      session_transcript
        (state (for_each l (proximity_body now user_id participant new_pos) r))
      = (session_transcript r ++ more)%list
      /\ filter is_gesture more = [].
Proof.
  induction l as [|[k p] l IH]; intros r; cbn [for_each].
  - exists []. cbn. now rewrite app_nil_r.
  - rewrite bind_run, proximity_body_run.
    destruct (String.eqb k user_id); cbn [result state after]; [apply IH|].
    destruct (distance_to new_pos (vr_position p)) as [d|ex];
      cbn [result state after].
    2:{ exists []. cbn. now rewrite app_nil_r. }
    destruct (PyFloat.ltb d PyFloat.three && proximity_chat_enabled r);
      cbn [result state after]; [|apply IH].
    match goal with
    | |- context [for_each l _ ?r1] => destruct (IH r1) as (more & Hm & Hf)
    end.
    rewrite Hm, transcript_logged, <- app_assoc.
    eexists. split; [reflexivity|].
    rewrite filter_app, Hf, app_nil_r.
    now apply filter_is_gesture_logged.
Qed.

(** Every call but the demo's start of recording appends to the
    transcript; [appended] tells the gesture entries among what it
    appends. *)
Lemma step_appends (r : Room) (now : Time) (c : Command) :
  c <> DemoStartRecording ->
  exists more,
    session_transcript (step r (now, c)) = (session_transcript r ++ more)%list
    /\ appended now c r more.
Proof.
  intros Hc. unfold step; cbn [fst snd].
  destruct c as [uid nm lang x y z|uid x y z rx ry rz|uid ty hd i| | | |uid o|];
    cbn [run appended]; [| | | | | | |congruence].
  - rewrite add_participant_run. cbn [state]. rewrite transcript_logged.
    eexists. split.
    + f_equal. unfold activated. cbn [is_active set_next_obj set_participants].
      now destruct (is_active r).
    + now apply filter_is_gesture_logged.
  - rewrite state_forget.
    destruct (dict_get uid (participants r)) as [p|] eqn:E.
    + destruct (state_of_move now uid x y z rx ry rz r p E) as (Hst & _).
      cbv zeta in Hst. rewrite Hst.
      match goal with
      | |- context [for_each ?l ?b ?r1] =>
          destruct (proximity_loop_appends now uid
                      (set_vr_position (mkVRPosition x y z rx ry rz) p)
                      (mkVRPosition x y z rx ry rz) l r1) as (more & Hm & Hf)
      end.
      rewrite Hm, transcript_logged, <- app_assoc.
      cbn [session_transcript set_participants].
      eexists. split; [reflexivity|].
      rewrite filter_app, Hf, app_nil_r.
      now apply filter_is_gesture_logged.
    + rewrite update_participant_position_absent by trivial.
      exists []. cbn. now rewrite app_nil_r.
  - rewrite state_forget.
    destruct (dict_get uid (participants r)) as [p|] eqn:E.
    + rewrite (perform_gesture_present now uid ty hd i r p E). cbv zeta.
      match goal with
      | |- context [state (match ?l with _ => _ end)] => destruct l
      end; cbn [state]; rewrite transcript_logged;
        cbn [session_transcript set_participants set_gestures];
        (eexists; split; [reflexivity|]);
        unfold logging_enabled;
        cbn [ai_note_taking_enabled ai_moderation_enabled video_recording_enabled
             set_participants set_gestures];
        reflexivity.
    + rewrite perform_gesture_absent by trivial.
      exists []. cbn. now rewrite app_nil_r.
  - rewrite handle_toggle_recording_run. cbv zeta. cbn [state].
    rewrite transcript_logged.
    destruct (video_recording_enabled r) eqn:Ev; cbn [negb].
    + cbn [session_transcript set_video_recording_enabled].
      eexists. split; [reflexivity|]. now apply filter_is_gesture_logged.
    + destruct (session_transcript r) eqn:Et.
      * cbn [session_transcript set_session_transcript app].
        eexists. split; [reflexivity|].
        cbn [filter is_gesture entry_type info_entry String.eqb Ascii.eqb Bool.eqb].
        now apply filter_is_gesture_logged.
      * cbn [session_transcript set_recording_start_time
             set_video_recording_enabled]. rewrite Et.
        eexists. split; [reflexivity|]. now apply filter_is_gesture_logged.
  - rewrite state_forget, save_recording_run.
    exists []. cbn. now rewrite app_nil_r.
  - rewrite handle_save_recording_run.
    exists []. cbn. now rewrite app_nil_r.
  - rewrite stop_speaking_run. cbv zeta. cbn [state written].
    exists []. split; [|reflexivity]. rewrite app_nil_r.
    destruct (dict_get uid (participants r)); [destruct (Nat.eqb _ _)|]; reflexivity.
Qed.

(** X9.  The transcript is only ever appended to by the calls of the
    room, with one exception: the start of recording of the demo, which
    replaces it by a single ["info"] entry. *)
Theorem transcript_append_only :
  (forall (r : Room) (now : Time) (c : Command),
      c <> DemoStartRecording ->
      extends (session_transcript r) (session_transcript (step r (now, c))))
  /\ (forall (r : Room) (now : Time),
        session_transcript (step r (now, DemoStartRecording))
        = [info_entry now "Recording started"]).
Proof.
  split.
  - intros r now c Hc. destruct (step_appends r now c Hc) as (more & Hm & _).
    now exists more.
  - intros r now. unfold step. cbn [fst snd run].
    now rewrite demo_start_recording_run.
Qed.

Lemma transcript_append_only_witness :
  extends (session_transcript room_a)
    (session_transcript
       (step room_a (5%nat, PerformGesture "a" "wave" "right" PyFloat.one))).
Proof.
  apply (proj1 transcript_append_only). discriminate.
Defined.

(* ================================================================= *)
(** * The room on which nothing has happened *)

Lemma logged_not_nil (now : Time) (ty : string) (data : Dict PyVal) (r : Room) :
  logging_enabled r = true -> session_transcript (logged now ty data r) <> [].
Proof.
  intros H. rewrite transcript_logged, H. intros E.
  apply app_eq_nil in E as [_ E]. discriminate.
Qed.

Lemma reachable_untouched (r : Room) :
  reachable r -> session_transcript r = [] -> r = init (room_id r) (room_name r).
Proof.
  induction 1 as [id nm|r now c _ IH]; [reflexivity|].
  intros Ht.
  assert (Hr : session_transcript r = []).
  { assert (Hc : c = DemoStartRecording \/ c <> DemoStartRecording)
      by (destruct c; first [now left|right; discriminate]).
    destruct Hc as [->|Hc].
    - revert Ht. unfold step. cbn [fst snd run].
      rewrite demo_start_recording_run. discriminate.
    - destruct (step_appends r now c Hc) as (more & Hm & _).
      rewrite Hm in Ht. now apply app_eq_nil in Ht. }
  specialize (IH Hr).
  remember (room_id r) as a eqn:Ha. remember (room_name r) as b eqn:Hb.
  subst r. clear Ha Hb Hr.
  revert Ht. unfold step. cbn [fst snd].
  destruct c as [uid nm lang x y z|uid x y z rx ry rz|uid ty hd i| | | |uid o|];
    cbn [run].
  - rewrite add_participant_run. cbn [state]. intros Ht.
    now apply logged_not_nil in Ht.
  - rewrite state_forget, update_participant_position_absent by reflexivity.
    reflexivity.
  - rewrite state_forget, perform_gesture_absent by reflexivity. reflexivity.
  - rewrite handle_toggle_recording_run. cbv zeta. cbn [state]. intros Ht.
    now apply logged_not_nil in Ht.
  - rewrite state_forget, save_recording_run. reflexivity.
  - rewrite handle_save_recording_run. reflexivity.
  - rewrite stop_speaking_run. reflexivity.
  - rewrite demo_start_recording_run. discriminate.
Qed.

(** X10.  A reachable room whose transcript is empty is the room as it
    was created: nobody has joined and nothing was recorded.  Hence, once
    somebody is in the registry or recording is on, a saved recording
    holds the transcript itself, never the placeholder. *)
Theorem untouched_room (r : Room) :
  reachable r ->
  (session_transcript r = [] -> r = init (room_id r) (room_name r))
  /\ (participants r <> [] \/ video_recording_enabled r = true ->
      session_transcript r <> [] /\
      forall now, rec_transcript (recording_data now r) = session_transcript r).
Proof.
  intros Hr. split; [now apply reachable_untouched|].
  intros Hp.
  assert (Ht : session_transcript r <> []).
  { intros Ht. apply (reachable_untouched r Hr) in Ht. rewrite Ht in Hp.
    destruct Hp as [Hp|Hp]; [now apply Hp|discriminate]. }
  split; [exact Ht|].
  intros now. cbn [recording_data rec_transcript].
  destruct (session_transcript r); [now destruct Ht|reflexivity].
Qed.

Lemma untouched_room_witness :
  rec_transcript (recording_data 9 room_ab) = session_transcript room_ab.
Proof.
  apply (proj2 (untouched_room room_ab room_ab_reachable)).
  left. vm_compute. discriminate.
Defined.

(* ================================================================= *)
(** * Recording *)





(* ================================================================= *)
(** * Joining and the console view *)








(* ================================================================= *)
(** * Logging an event, whatever its data *)




(* ================================================================= *)
(** * The view sent to the web clients *)

Lemma last_n_min {A : Type} (n : nat) (l : list A) :
  List.length (last_n n l) = Nat.min n (List.length l).
Proof. unfold last_n. rewrite length_skipn. lia. Qed.

Lemma last_n_suffix {A : Type} (n : nat) (l : list A) :
  exists older, l = (older ++ last_n n l)%list.
Proof.
  exists (firstn (List.length l - n) l). unfold last_n.
  now rewrite firstn_skipn.
Qed.

Lemma Language_value_known (l : Language) : In (Language_value l) language_values.
Proof. destruct l; cbn; auto 10. Qed.

Lemma set_recent_gestures_same (p : Participant) :
  set_recent_gestures (recent_gestures p) p = p.
Proof. now destruct p. Qed.

(** X14.  The view of the room counts the participants it lists; it
    carries the last ten gestures of the room, in their order, and for
    each participant at most five; the languages in use are those of the
    participants, each once, so at most seven and no more than there are
    participants.  In a reachable room the five-gesture cut changes
    nothing: the participants are listed as the registry holds them. *)
Theorem get_room_state_for_web_bounds (r : Room) :
  let v := get_room_state_for_web r in
  participant_count v = List.length (view_participants v)
  /\ List.length (view_recent_gestures v) = Nat.min 10 (List.length (gestures r))
  /\ (exists older, gestures r = (older ++ view_recent_gestures v)%list)
  /\ (forall p, In p (view_participants v) ->
        (List.length (recent_gestures p) <= 5)%nat)
  /\ NoDup (languages_in_use v)
  /\ (forall s, In s (languages_in_use v) <->
        exists k p, In (k, p) (participants r)
                    /\ Language_value (preferred_language p) = s)
  /\ (List.length (languages_in_use v) <= Nat.min 7 (participant_count v))%nat
  /\ (reachable r -> view_participants v = dict_values (participants r)).
Proof.
  cbv zeta.
  cbn [get_room_state_for_web participant_count view_participants
       view_recent_gestures languages_in_use].
  split; [unfold dict_values; now rewrite !length_map|].
  split; [apply last_n_min|]. split; [apply last_n_suffix|].
  split; [|split; [apply NoDup_nodup|split; [|split]]].
  - intros p Hp. apply in_map_iff in Hp as (q & <- & _).
    cbn [recent_gestures set_recent_gestures]. rewrite last_n_min. lia.
  - intros s. rewrite nodup_In, in_map_iff. unfold dict_values. split.
    + intros (p & Hs & Hp). apply in_map_iff in Hp as ([k q] & <- & Hin).
      now exists k, q.
    + intros (k & p & Hin & Hs). exists p. split; [exact Hs|].
      apply in_map_iff. now exists (k, p).
  - apply Nat.min_glb.
    + change 7%nat with (List.length language_values).
      apply NoDup_incl_length; [apply NoDup_nodup|].
      intros s Hs. apply nodup_In, in_map_iff in Hs as (p & <- & _).
      apply Language_value_known.
    + rewrite <- (length_map snd (participants r)).
      fold (dict_values (participants r)).
      rewrite <- (length_map (fun p => Language_value (preferred_language p))
                    (dict_values (participants r))).
      apply NoDup_incl_length; [apply NoDup_nodup|].
      intros s Hs. now apply nodup_In in Hs.
  - intros Hr. pose proof (reachable_gestures_bounded r Hr) as Hb.
    unfold gestures_bounded in Hb. unfold dict_values.
    rewrite map_map. apply map_ext_in. intros [k p] Hin. cbn [snd].
    rewrite last_n_short by (eapply Hb; eassumption).
    apply set_recent_gestures_same.
Qed.

Lemma get_room_state_for_web_bounds_witness :
  view_participants (get_room_state_for_web room_ab)
  = dict_values (participants room_ab).
Proof.
  apply (get_room_state_for_web_bounds room_ab). exact room_ab_reachable.
Defined.

(* ================================================================= *)
(** * The gesture entries of the transcript *)

Lemma gesture_logged_later (r r' : Room) (e : TranscriptEntry) :
  (exists more, gestures r' = (gestures r ++ more)%list) ->
  gesture_logged r e -> gesture_logged r' e.
Proof.
  intros [more Hg] (uid & user & gt & lang & g & Hd & Hin & Hty & Hts).
  exists uid, user, gt, lang, g. repeat split; trivial.
  rewrite Hg. apply in_or_app. now left.
Qed.

Lemma transcript_gestures_ok_others (r r' : Room) (more : list TranscriptEntry) :
  session_transcript r' = (session_transcript r ++ more)%list ->
  filter is_gesture more = [] ->
  (exists mg, gestures r' = (gestures r ++ mg)%list) ->
  transcript_gestures_ok r -> transcript_gestures_ok r'.
Proof.
  intros Ht Hf Hg [Hn He]. split.
  - rewrite Ht, filter_app, Hf, app_nil_r. destruct Hg as [mg ->].
    rewrite length_app. lia.
  - intros e Hin Hge. rewrite Ht in Hin. apply in_app_or in Hin as [Hin|Hin].
    + eapply gesture_logged_later; eauto.
    + assert (Hx : In e (filter is_gesture more)) by (apply filter_In; now split).
      rewrite Hf in Hx. destruct Hx.
Qed.

Lemma transcript_gestures_ok_gesture (r r' : Room) (now : Time)
    (user_id gesture_type hand : string) (intensity : float) (p : Participant) :
  let g := mkVRGesture gesture_type hand intensity PyFloat.one now in
  session_transcript r'
  = (session_transcript r ++ [gesture_entry now user_id gesture_type p])%list ->
  gestures r' = (gestures r ++ [g])%list ->
  transcript_gestures_ok r -> transcript_gestures_ok r'.
Proof.
  intros g Ht Hg [Hn He]. split.
  - rewrite Ht, Hg, filter_app, !length_app. cbn. lia.
  - intros e Hin Hge. rewrite Ht in Hin. apply in_app_or in Hin as [Hin|[<-|[]]].
    + eapply gesture_logged_later; eauto.
    + exists user_id, (name p), gesture_type,
        (Language_value (preferred_language p)), g.
      repeat split. rewrite Hg. apply in_or_app. right. now left.
Qed.

Lemma step_transcript_gestures_ok (r : Room) (now : Time) (c : Command) :
  transcript_gestures_ok r -> transcript_gestures_ok (step r (now, c)).
Proof.
  intros Hok.
  assert (Hg : exists mg, gestures (step r (now, c)) = (gestures r ++ mg)%list).
  { rewrite (proj1 (proj2 (step_fields r now c))).
    destruct (written_gestures now c r) as (mg & Hmg & _). now exists mg. }
  assert (Hc : c = DemoStartRecording \/ c <> DemoStartRecording)
    by (destruct c; first [now left|right; discriminate]).
  destruct Hc as [->|Hc].
  - split.
    + unfold step. cbn [fst snd run]. rewrite demo_start_recording_run. cbn. lia.
    + unfold step. cbn [fst snd run]. rewrite demo_start_recording_run.
      cbn [state session_transcript set_session_transcript].
      intros e [<-|[]]. discriminate.
  - destruct (step_appends r now c Hc) as (more & Hm & Happ).
    destruct c as [uid nm lang x y z|uid x y z rx ry rz|uid ty hd i| | | |uid o|];
      cbn [appended] in Happ;
      try (eapply transcript_gestures_ok_others; eassumption).
    destruct (dict_get uid (participants r)) as [p|] eqn:E.
    2:{ subst more. eapply transcript_gestures_ok_others; eauto. }
    destruct (logging_enabled r).
    2:{ subst more. eapply transcript_gestures_ok_others; eauto. }
    subst more.
    eapply (transcript_gestures_ok_gesture r _ now uid ty hd i); eauto.
    rewrite (proj1 (proj2 (step_fields r now _))). cbn [written]. now rewrite E.
Qed.

Lemma reachable_transcript_gestures_ok (r : Room) :
  reachable r -> transcript_gestures_ok r.
Proof.
  induction 1 as [id nm|r now c _ IH].
  - split; [cbn; lia|intros e []].
  - now apply step_transcript_gestures_ok.
Qed.

(* ================================================================= *)
(** * Meeting notes *)

Lemma comprehension_Forall2 {A B : Type} (f : A -> PyResult B)
    (P : A -> B -> Prop) (l : list A) :
  (forall a, In a l -> exists b, f a = Ok b /\ P a b) ->
  exists bs, comprehension f l = Ok bs /\ Forall2 P l bs.
Proof.
  induction l as [|a l IH]; intros H; cbn [comprehension].
  - exists []. split; [reflexivity|constructor].
  - destruct (H a (or_introl eq_refl)) as (b & Hb & Pb).
    destruct IH as (bs & Hbs & Pbs); [intros; apply H; now right|].
    exists (b :: bs). rewrite Hb, Hbs. split; [reflexivity|now constructor].
Qed.

Lemma Forall2_In_r {A B : Type} (P : A -> B -> Prop) (l : list A) (bs : list B)
    (b : B) :
  Forall2 P l bs -> In b bs -> exists a, In a l /\ P a b.
Proof.
  induction 1 as [|a b' l bs Hab _ IH]; intros Hin; [destruct Hin|].
  destruct Hin as [<-|Hin].
  - exists a. split; [now left|exact Hab].
  - destruct (IH Hin) as (a' & Ha' & Pa'). exists a'. split; [now right|exact Pa'].
Qed.

(** X15.  In a reachable room [generate_ai_notes] returns: every gesture
    entry of the transcript has the two keys it reads.  It counts the
    gesture entries of the transcript, which are no more than the
    gestures of the room, and lists a key moment for each of the last
    ten, each naming a gesture of the room; it counts the participants
    of the registry, and gives no duration exactly when nobody has
    joined yet. *)
Theorem generate_ai_notes_reachable (str : PyVal -> string) (now : Time)
    (r : Room) :
  (forall s, str (VStr s) = s) ->
  reachable r ->
  exists notes,
    generate_ai_notes str now r = Ok notes
    /\ (gesture_count notes <= List.length (gestures r))%nat
    /\ List.length (key_moments notes) = Nat.min 10 (gesture_count notes)
    /\ (forall m, In m (key_moments notes) ->
          exists (user : string) (g : VRGesture),
            In g (gestures r)
            /\ m = user ++ " performed '" ++ gesture_type g ++ "'")
    /\ notes_participant_count notes = List.length (participants r)
    /\ List.length (action_items notes) = 8%nat
    /\ (notes_duration notes = None <-> is_active r = false).
Proof.
  intros Hstr Hr.
  destruct (reachable_transcript_gestures_ok r Hr) as [Hn He].
  unfold generate_ai_notes.
  set (gs := filter is_gesture (session_transcript r)).
  change (filter (fun e => String.eqb (entry_type e) "gesture")
            (session_transcript r)) with gs.
  destruct (comprehension_Forall2 (key_moment str)
              (fun e m => exists (user : string) (g : VRGesture),
                   In g (gestures r)
                   /\ m = user ++ " performed '" ++ gesture_type g ++ "'")
              (last_n 10 gs)) as (ms & Hms & Pms).
  { intros e Hin. apply In_last_n in Hin. apply filter_In in Hin as [Hin Hge].
    destruct (He e Hin Hge) as (uid & user & gt & lang & g & Hd & Hg & Hty & _).
    eexists. split.
    - unfold key_moment, dict_item. rewrite Hd.
      cbn [dict_get String.eqb Ascii.eqb Bool.eqb rbind]. rewrite !Hstr.
      reflexivity.
    - exists user, g. now rewrite Hty. }
  rewrite Hms. cbn [rbind]. eexists. split; [reflexivity|].
  cbn [gesture_count key_moments notes_participant_count notes_duration
       action_items].
  split; [exact Hn|]. split; [|split; [|split; [|split]]].
  - rewrite <- (Forall2_length Pms). apply last_n_min.
  - intros m Hm. destruct (Forall2_In_r _ _ _ _ Pms Hm) as (e & _ & Pe). exact Pe.
  - unfold dict_values. now rewrite !length_map.
  - reflexivity.
  - destruct (reachable_session_states r Hr) as [Hoff Hon].
    destruct (is_active r).
    + destruct (Hon eq_refl) as (_ & t & ->). split; discriminate.
    + destruct (Hoff eq_refl) as (_ & ->). split; reflexivity.
Qed.

Lemma generate_ai_notes_reachable_witness :
  exists notes,
    generate_ai_notes (fun v => match v with VStr s => s | _ => "" end) 9
      (step room_a (5%nat, PerformGesture "a" "wave" "right" PyFloat.one))
    = Ok notes.
Proof.
  destruct (generate_ai_notes_reachable
              (fun v => match v with VStr s => s | _ => "" end) 9
              (step room_a (5%nat, PerformGesture "a" "wave" "right" PyFloat.one))
              (fun s => eq_refl)
              (reachable_step room_a 5%nat _
                 (reachable_step _ 1%nat _
                    (reachable_init "vr_multilingual"
                       "Global Localization Project Kickoff"))))
    as (notes & H & _).
  exists notes. exact H.
Defined.

(* ================================================================= *)
(** * Distances between arbitrary positions *)

Lemma sub_nan_l (b : float) : PyFloat.sub S754_nan b = S754_nan.
Proof. now destruct b. Qed.

Lemma sub_nan_r (a : float) : PyFloat.sub a S754_nan = S754_nan.
Proof. now destruct a. Qed.

Lemma add_nan_l (b : float) : PyFloat.add S754_nan b = S754_nan.
Proof. now destruct b. Qed.

Lemma add_nan_r (a : float) : PyFloat.add a S754_nan = S754_nan.
Proof. now destruct a. Qed.

Lemma pow_2_nan_inv (d v : float) :
  d = S754_nan -> PyFloat.pow_2 d = Ok v -> v = S754_nan.
Proof. intros ->. now intros [= <-]. Qed.

Lemma pow_half_ok_nonneg_or_nan (a v : float) :
  nonneg_or_nan a -> PyFloat.pow_half a = Ok v -> nonneg_or_nan v.
Proof.
  intros [->|Ha] H.
  - left. now injection H as <-.
  - right. eapply pow_half_nonneg; eassumption.
Qed.

Lemma distance_to_ok_nonneg_or_nan (a b : VRPosition) (d : float) :
  distance_to a b = Ok d -> nonneg_or_nan d.
Proof.
  unfold distance_to.
  destruct (PyFloat.pow_2 (PyFloat.sub (x a) (x b))) as [sx|e] eqn:Ex;
    cbn [rbind]; [|discriminate].
  destruct (PyFloat.pow_2 (PyFloat.sub (y a) (y b))) as [sy|e] eqn:Ey;
    cbn [rbind]; [|discriminate].
  destruct (PyFloat.pow_2 (PyFloat.sub (z a) (z b))) as [sz|e] eqn:Ez;
    cbn [rbind]; [|discriminate].
  apply pow_half_ok_nonneg_or_nan.
  repeat apply add_nonneg_or_nan; eapply pow_2_nonneg_or_nan; eassumption.
Qed.

Lemma distance_to_nan (a b : VRPosition) (d : float) :
  nan_position a \/ nan_position b -> distance_to a b = Ok d -> d = S754_nan.
Proof.
  intros Hnan. unfold distance_to.
  destruct (PyFloat.pow_2 (PyFloat.sub (x a) (x b))) as [sx|e] eqn:Ex;
    cbn [rbind]; [|discriminate].
  destruct (PyFloat.pow_2 (PyFloat.sub (y a) (y b))) as [sy|e] eqn:Ey;
    cbn [rbind]; [|discriminate].
  destruct (PyFloat.pow_2 (PyFloat.sub (z a) (z b))) as [sz|e] eqn:Ez;
    cbn [rbind]; [|discriminate].
  assert (Hsum : PyFloat.add (PyFloat.add sx sy) sz = S754_nan).
  { destruct Hnan as [[H|[H|H]]|[H|[H|H]]]; rewrite H in *;
      rewrite ?sub_nan_l, ?sub_nan_r in *.
    - rewrite (pow_2_nan_inv _ _ eq_refl Ex). now rewrite !add_nan_l.
    - rewrite (pow_2_nan_inv _ _ eq_refl Ey). now rewrite add_nan_r, add_nan_l.
    - rewrite (pow_2_nan_inv _ _ eq_refl Ez). now rewrite add_nan_r.
    - rewrite (pow_2_nan_inv _ _ eq_refl Ex). now rewrite !add_nan_l.
    - rewrite (pow_2_nan_inv _ _ eq_refl Ey). now rewrite add_nan_r, add_nan_l.
    - rewrite (pow_2_nan_inv _ _ eq_refl Ez). now rewrite add_nan_r. }
  rewrite Hsum. now intros [= <-].
Qed.

Lemma ltb_nonneg_or_nan_zero (d : float) :
  nonneg_or_nan d -> PyFloat.ltb d PyFloat.zero = false.
Proof.
  intros [->|H]; [reflexivity|].
  unfold nonneg in H.
  destruct d as [s|s| |s m e]; cbn [signed_as] in H;
    try contradiction; subst; reflexivity.
Qed.

(** X16.  Whatever the two positions, NaN and infinite coordinates
    included, [distance_to] either raises [OverflowError] or returns a
    float that is a NaN or carries no minus sign, so that it is never
    below zero.  When a coordinate x, y or z of one of the positions is a
    NaN, the distance is a NaN unless the call raises, and so it is
    neither below [3.0] nor below [5.0]. *)
Theorem distance_to_outcomes (a b : VRPosition) :
  (distance_to a b = Raise OverflowError
   \/ exists d, distance_to a b = Ok d /\ nonneg_or_nan d)
  /\ (forall d, distance_to a b = Ok d -> PyFloat.ltb d PyFloat.zero = false)
  /\ (nan_position a \/ nan_position b ->
      (distance_to a b = Raise OverflowError \/ distance_to a b = Ok S754_nan)
      /\ PyFloat.ltb (distance_or_nan a b) PyFloat.three = false
      /\ PyFloat.ltb (distance_or_nan a b) PyFloat.five = false).
Proof.
  split; [|split].
  - destruct (distance_to a b) as [d|e] eqn:E.
    + right. exists d. split; [reflexivity|].
      eapply distance_to_ok_nonneg_or_nan; eassumption.
    + left. f_equal. eapply distance_to_raise; eassumption.
  - intros d Hd. apply ltb_nonneg_or_nan_zero.
    eapply distance_to_ok_nonneg_or_nan; eassumption.
  - intros Hnan. unfold distance_or_nan.
    destruct (distance_to a b) as [d|e] eqn:E.
    + apply (distance_to_nan a b d Hnan) in E. subst d.
      repeat split. now right.
    + apply distance_to_raise in E. subst e. repeat split. now left.
Qed.

Lemma distance_to_outcomes_witness :
  PyFloat.ltb
    (distance_or_nan
       (VRPosition3 (PyFloat.of_Z 0) S754_nan (PyFloat.of_Z 0))
       (VRPosition3 (PyFloat.of_Z 1) (PyFloat.of_Z 0) (PyFloat.of_Z 0)))
    PyFloat.three
  = false.
Proof.
  apply (proj2 (proj2 (distance_to_outcomes
                         (VRPosition3 (PyFloat.of_Z 0) S754_nan (PyFloat.of_Z 0))
                         (VRPosition3 (PyFloat.of_Z 1) (PyFloat.of_Z 0)
                            (PyFloat.of_Z 0))))).
  left. right. left. reflexivity.
Defined.

(* ================================================================= *)
(** * When a move and a gesture return *)

Lemma proximity_loop_result (now : Time) (user_id : string)
    (participant : Participant) (new_pos : VRPosition) (l : Dict Participant) :
  forall r,
    result (for_each l (proximity_body now user_id participant new_pos) r) = Ok tt
    <-> forallb (fun kv => measurable new_pos (vr_position (snd kv)))
          (others user_id l) = true.
Proof.
  induction l as [|[k p] l IH]; intros r; cbn [for_each].
  - split; reflexivity.
  - rewrite bind_run, proximity_body_run.
    unfold others. cbn [filter fst]. fold (others user_id l).
    destruct (String.eqb k user_id); cbn [negb result state after]; [apply IH|].
    cbn [forallb snd]. unfold measurable at 1.
    destruct (distance_to new_pos (vr_position p)) as [d|e];
      cbn [result andb]; [|split; discriminate].
    destruct (PyFloat.ltb d PyFloat.three && proximity_chat_enabled r);
      cbn [result state after]; apply IH.
Qed.

Lemma visibility_loop_result (user_id : string) (participant : Participant)
    (l : Dict Participant) :
  forall r,
    result (for_each l (visibility_body user_id participant) r) = Ok tt
    <-> forallb (fun kv => measurable (vr_position participant)
                             (vr_position (snd kv)))
          (others user_id l) = true.
Proof.
  induction l as [|[k q] l IH]; intros r; cbn [for_each].
  - split; reflexivity.
  - rewrite bind_silent by apply visibility_body_silent.
    unfold others. cbn [filter fst]. fold (others user_id l).
    unfold visibility_body at 1.
    destruct (String.eqb k user_id); cbn [negb]; [cbn; apply IH|].
    cbn [forallb snd]. unfold measurable at 1.
    destruct (distance_to (vr_position participant) (vr_position q)) as [d|ex].
    + rewrite bind_lift_ok. cbn [andb].
      destruct (PyFloat.ltb d PyFloat.five); cbn; apply IH.
    + rewrite bind_lift_raise. cbn. split; discriminate.
Qed.

(** X17.  A move of a participant of the registry returns [True] exactly
    when the distance from the new position to every other participant
    can be computed, and a gesture exactly when the distance from the
    position of its participant to every other one can; in a room with
    nobody else both always return. *)
Theorem calls_return_iff_measurable :
  (forall (r : Room) (now : Time) (user_id : string)
          (x y z rotation_x rotation_y rotation_z : float) (mover : Participant),
      dict_get user_id (participants r) = Some mover ->
      let new_pos := mkVRPosition x y z rotation_x rotation_y rotation_z in
      result (update_participant_position now user_id
                x y z rotation_x rotation_y rotation_z r) = Ok true
      <-> forallb (fun kv => measurable new_pos (vr_position (snd kv)))
            (others user_id (participants r)) = true)
  /\ (forall (r : Room) (now : Time) (user_id gesture_type hand : string)
             (intensity : float) (p : Participant),
        dict_get user_id (participants r) = Some p ->
        result (perform_gesture now user_id gesture_type hand intensity r) = Ok true
        <-> forallb (fun kv => measurable (vr_position p) (vr_position (snd kv)))
              (others user_id (participants r)) = true).
Proof.
  split.
  - intros r now uid x y z rx ry rz mover Hm new_pos.
    rewrite (update_participant_position_present now uid x y z rx ry rz r mover Hm).
    cbv zeta. fold new_pos.
    match goal with
    | |- context [for_each ?l ?b ?r1] =>
        pose proof (proximity_loop_result now uid
                      (set_vr_position new_pos mover) new_pos l r1) as H;
        destruct (result (for_each l b r1)) as [[]|e]
    end; cbn [result].
    + unfold others in H. rewrite others_dict_set in H.
      split; [intros _; now apply H|reflexivity].
    + unfold others in H. rewrite others_dict_set in H.
      split; [discriminate|]. intros Hall. apply H in Hall. discriminate.
  - intros r now uid gt hd i p Hp.
    rewrite (perform_gesture_present now uid gt hd i r p Hp). cbv zeta.
    match goal with
    | |- context [for_each ?l (visibility_body uid ?q) ?r1] =>
        pose proof (visibility_loop_result uid q l r1) as H;
        assert (Hl : others uid l = others uid (participants r));
        [|destruct (result (for_each l (visibility_body uid q) r1)) as [[]|e]]
    end; cbn [result].
    + rewrite (proj1 (logged_fields _ _ _ _)).
      cbn [participants set_participants set_gestures].
      unfold others. now rewrite others_dict_set.
    + rewrite Hl in H.
      cbn [vr_position gestured set_is_speaking set_recent_gestures] in H.
      split; [intros _; now apply H|reflexivity].
    + rewrite Hl in H.
      cbn [vr_position gestured set_is_speaking set_recent_gestures] in H.
      split; [discriminate|]. intros Hall. apply H in Hall. discriminate.
Qed.

Lemma calls_return_iff_measurable_witness :
  result (move 3 "b" 1 room_ab) = Ok true.
Proof.
  unfold move.
  apply (proj1 calls_return_iff_measurable room_ab 3 "b"
           (PyFloat.of_Z 1) (PyFloat.of_Z 0) (PyFloat.of_Z 0)
           (PyFloat.of_Z 0) (PyFloat.of_Z 0) (PyFloat.of_Z 0)
           (new_participant 2 "b" "Bob" TURKISH (PyFloat.of_Z 4) (PyFloat.of_Z 0)
              (PyFloat.of_Z 0) room_a) eq_refl).
  vm_compute. reflexivity.
Defined.

(* ================================================================= *)
(** * A move to a position that is not a number *)

Lemma proximity_loop_nan (now : Time) (user_id : string)
    (participant : Participant) (new_pos : VRPosition) (l : Dict Participant) :
  nan_position new_pos ->
  forall r,
    let loop := for_each l (proximity_body now user_id participant new_pos) r in
    effects loop = [] /\ state loop = r.
Proof.
  intros Hnan. cbv zeta.
  induction l as [|[k p] l IH]; intros r; cbn [for_each]; [now split|].
  rewrite bind_run, proximity_body_run.
  destruct (String.eqb k user_id); cbn [result state effects after app];
    [apply IH|].
  destruct (distance_to new_pos (vr_position p)) as [d|e] eqn:E;
    cbn [result state effects]; [|now split].
  apply (distance_to_nan _ _ _ (or_introl Hnan)) in E. subst d.
  cbn [PyFloat.ltb SFltb SFcompare andb result state effects after app].
  apply IH.
Qed.

(** X18.  A move to a position one of whose coordinates x, y, z is a NaN
    alerts nobody, whoever stands there: nothing is sent but, when the
    call returns, the [position_update], and the transcript receives the
    [position_update] entry only. *)
Theorem nan_move_alerts_nobody (now : Time) (user_id : string)
    (x y z rotation_x rotation_y rotation_z : float) (r : Room)
    (mover : Participant) :
  dict_get user_id (participants r) = Some mover ->
  nan_position (mkVRPosition x y z rotation_x rotation_y rotation_z) ->
  let o := update_participant_position now user_id
             x y z rotation_x rotation_y rotation_z r in
  (result o = Ok true \/ result o = Raise OverflowError)
  /\ proximity_alerts (effects o) = []
  /\ (result o = Ok true ->
      effects o = [emit_position_update user_id (x, y, z)
                     (rotation_x, rotation_y, rotation_z)])
  /\ session_transcript (state o)
     = (session_transcript r
        ++ if logging_enabled r
           then [position_update_entry now user_id
                   x y z rotation_x rotation_y rotation_z]
           else [])%list.
Proof.
  intros Hm Hnan o. unfold o.
  rewrite (update_participant_position_present now user_id
             x y z rotation_x rotation_y rotation_z r mover Hm).
  cbv zeta.
  match goal with
  | |- context [for_each ?l (proximity_body now user_id ?p ?np) ?r1] =>
      destruct (proximity_loop_nan now user_id p np l Hnan r1) as [He Hs];
      pose proof (proximity_loop_raise now user_id p np l r1) as Hr;
      cbv zeta in He, Hs;
      destruct (result (for_each l (proximity_body now user_id p np) r1))
        as [[]|e]
  end; cbn [result state effects]; rewrite He, Hs, transcript_logged.
  - repeat split; auto.
  - rewrite (Hr e eq_refl). repeat split; auto. discriminate.
Qed.

Lemma nan_move_alerts_nobody_witness :
  proximity_alerts
    (effects
       (update_participant_position 3 "b"
          (PyFloat.of_Z (-3)) S754_nan (PyFloat.of_Z 0)
          (PyFloat.of_Z 0) (PyFloat.of_Z 0) (PyFloat.of_Z 0) room_ab))
  = [].
Proof.
  apply (nan_move_alerts_nobody 3 "b"
           (PyFloat.of_Z (-3)) S754_nan (PyFloat.of_Z 0)
           (PyFloat.of_Z 0) (PyFloat.of_Z 0) (PyFloat.of_Z 0) room_ab
           (new_participant 2 "b" "Bob" TURKISH (PyFloat.of_Z 4) (PyFloat.of_Z 0)
              (PyFloat.of_Z 0) room_a) eq_refl).
  right. left. reflexivity.
Defined.

(* ================================================================= *)
(** * The registry that joins build *)

Lemma dict_set_absent {V : Type} (k : string) (v : V) (d : Dict V) :
  dict_get k d = None -> dict_set k v d = (d ++ [(k, v)])%list.
Proof.
  induction d as [|[k' v'] d IH]; cbn; [reflexivity|].
  destruct (String.eqb k' k); [discriminate|]. intros H. now rewrite IH.
Qed.

Lemma participants_of_join (r : Room) (now : Time) (user_id name : string)
    (l : Language) (x y z : float) :
  participants (step r (now, AddParticipant user_id name l x y z))
  = dict_set user_id (new_participant now user_id name l x y z r) (participants r)
  /\ next_obj (step r (now, AddParticipant user_id name l x y z)) = S (next_obj r).
Proof.
  destruct (step_fields r now (AddParticipant user_id name l x y z))
    as (Hp & _ & _ & _ & _ & _ & _ & _ & _ & Hn).
  rewrite Hp, Hn. cbn [written]. unfold activated.
  cbn [is_active set_next_obj set_participants].
  now destruct (is_active r).
Qed.

Lemma joins_build (cs : list (Time * Command)) :
  forall (ids : list string) (r : Room),
    map joined_id cs = map Some ids ->
    NoDup ids ->
    (forall id, In id ids -> dict_get id (participants r) = None) ->
    next_obj r = List.length (participants r) ->
    participants (run_all cs r)
    = (participants r ++ joined_from (List.length (participants r)) cs)%list.
Proof.
  unfold run_all.
  induction cs as [|[now c] cs IH]; intros ids r Hids Hnd Habs Hobj;
    cbn [fold_left joined_from].
  - now rewrite app_nil_r.
  - destruct ids as [|k ids]; [discriminate|].
    cbn [map] in Hids. injection Hids as Hk Hids.
    unfold joined_id in Hk. cbn [snd] in Hk.
    destruct c as [uid nm lang x y z| | | | | | |]; try discriminate.
    injection Hk as ->.
    destruct (participants_of_join r now k nm lang x y z) as [Hp Hn].
    assert (Hk : dict_get k (participants r) = None) by (apply Habs; now left).
    rewrite (dict_set_absent _ _ _ Hk) in Hp.
    assert (Hlen : List.length
                     (participants (step r (now, AddParticipant k nm lang x y z)))
                   = S (List.length (participants r)))
      by (rewrite Hp, length_app; cbn; lia).
    rewrite (IH ids).
    + rewrite Hlen, Hp, <- app_assoc. cbn [app]. unfold new_participant.
      now rewrite Hobj.
    + exact Hids.
    + now apply NoDup_cons_iff in Hnd.
    + intros id Hin. rewrite Hp.
      rewrite <- (dict_set_absent k
                    (new_participant now k nm lang x y z r) (participants r) Hk).
      rewrite dict_get_set_other; [apply Habs; now right|].
      apply String.eqb_neq. intros ->.
      apply NoDup_cons_iff in Hnd. now destruct Hnd.
    + rewrite Hn, Hlen. now rewrite Hobj.
Qed.

Lemma joined_from_avatars (cs : list (Time * Command)) :
  forall (ids : list string) (i : nat),
    map joined_id cs = map Some ids ->
    map avatar_id (dict_values (joined_from i cs))
    = map (fun n => "avatar_" ++ PyStr.of_nat n) (seq (i + 1) (List.length cs)).
Proof.
  induction cs as [|[now c] cs IH]; intros ids i Hids; [reflexivity|].
  destruct ids as [|k ids]; [discriminate|].
  cbn [map] in Hids. injection Hids as Hk Hids.
  unfold joined_id in Hk. cbn [snd] in Hk.
  destruct c as [uid nm lang x y z| | | | | | |]; try discriminate.
  cbn [joined_from dict_values map snd avatar_id List.length seq].
  f_equal. fold (dict_values (joined_from (S i) cs)).
  rewrite (IH ids (S i) Hids). now replace (S i + 1)%nat with (S (i + 1)) by lia.
Qed.

(** X19.  Joins under distinct ids on a new room build the registry one
    entry after the other: each participant is as its join gave it, not
    speaking and without gestures, and the avatars are numbered
    [avatar_1], [avatar_2], ... in the order of the joins.  The number is
    taken from the size of the registry, which a join under an id that
    is already there does not change: the participant who joins next
    under a new id gets the same avatar as the one who just rejoined. *)
Theorem joins_build_registry :
  (forall (cs : list (Time * Command)) (ids : list string)
          (room_id room_name : string),
      map joined_id cs = map Some ids ->
      NoDup ids ->
      let r := run_all cs (init room_id room_name) in
      participants r = joined_from 0 cs
      /\ map avatar_id (dict_values (participants r))
         = map (fun n => "avatar_" ++ PyStr.of_nat n) (seq 1 (List.length cs)))
  /\ (forall (r : Room) (now1 now2 : Time) (id1 name1 id2 name2 : string)
             (l1 l2 : Language) (x1 y1 z1 x2 y2 z2 : float) (p : Participant),
        dict_get id1 (participants r) = Some p ->
        dict_get id2 (participants r) = None ->
        let r' :=
          step (step r (now1, AddParticipant id1 name1 l1 x1 y1 z1))
            (now2, AddParticipant id2 name2 l2 x2 y2 z2) in
        exists p1 p2,
          dict_get id1 (participants r') = Some p1
          /\ dict_get id2 (participants r') = Some p2
          /\ avatar_id p1 = avatar_id p2).
Proof.
  split.
  - intros cs ids rid rnm Hids Hnd r.
    assert (Hp : participants r = joined_from 0 cs).
    { unfold r. rewrite (joins_build cs ids (init rid rnm) Hids Hnd);
        [reflexivity|intros; reflexivity|reflexivity]. }
    split; [exact Hp|]. rewrite Hp. apply (joined_from_avatars cs ids 0 Hids).
  - intros r now1 now2 id1 name1 id2 name2 l1 l2 x1 y1 z1 x2 y2 z2 p H1 H2 r'.
    set (r1 := step r (now1, AddParticipant id1 name1 l1 x1 y1 z1)) in *.
    destruct (participants_of_join r now1 id1 name1 l1 x1 y1 z1) as [Hp1 _].
    fold r1 in Hp1.
    destruct (participants_of_join r1 now2 id2 name2 l2 x2 y2 z2) as [Hp2 _].
    fold r' in Hp2.
    assert (Hne : String.eqb id2 id1 = false).
    { apply String.eqb_neq. intros ->. congruence. }
    exists (new_participant now1 id1 name1 l1 x1 y1 z1 r),
           (new_participant now2 id2 name2 l2 x2 y2 z2 r1).
    split; [|split].
    + rewrite Hp2, dict_get_set_other by exact Hne.
      rewrite Hp1. apply dict_get_set.
    + rewrite Hp2. apply dict_get_set.
    + cbn [avatar_id new_participant]. rewrite Hp1.
      now rewrite (dict_set_length_present _ _ _ _ H1).
Qed.

Lemma joins_build_registry_witness :
  map avatar_id
    (dict_values
       (participants
          (run_all
             [(1%nat, AddParticipant "a" "Alice" ENGLISH
                        (PyFloat.of_Z (-4)) (PyFloat.of_Z 0) (PyFloat.of_Z 0));
              (2%nat, AddParticipant "b" "Bob" TURKISH
                        (PyFloat.of_Z 4) (PyFloat.of_Z 0) (PyFloat.of_Z 0))]
             (init "vr_multilingual" "Global Localization Project Kickoff"))))
  = map (fun n => "avatar_" ++ PyStr.of_nat n) (seq 1 2).
Proof.
  apply (proj1 joins_build_registry
           [(1%nat, AddParticipant "a" "Alice" ENGLISH
                      (PyFloat.of_Z (-4)) (PyFloat.of_Z 0) (PyFloat.of_Z 0));
            (2%nat, AddParticipant "b" "Bob" TURKISH
                      (PyFloat.of_Z 4) (PyFloat.of_Z 0) (PyFloat.of_Z 0))]
           ["a"; "b"]
           "vr_multilingual" "Global Localization Project Kickoff").
  - reflexivity.
  - repeat constructor; cbn; intuition discriminate.
Defined.

(* ================================================================= *)
(** * The start of a recording *)

Lemma step_recording_start_time (r : Room) (now : Time) (c : Command) :
  recording_start_time (step r (now, c)) = recording_start_time (written now c r)
  /\ video_recording_enabled (step r (now, c))
     = video_recording_enabled (written now c r).
Proof.
  pose proof (step_but_transcript r now c) as H. split.
  - change (recording_start_time (but_transcript (step r (now, c)))
            = recording_start_time (but_transcript (written now c r))).
    now rewrite H.
  - change (video_recording_enabled (but_transcript (step r (now, c)))
            = video_recording_enabled (but_transcript (written now c r))).
    now rewrite H.
Qed.

Lemma written_recording_started (now : Time) (c : Command) (r : Room) :
  recording_started r -> recording_started (written now c r).
Proof.
  unfold recording_started. intros H.
  destruct c; cbn [written]; unfold activated;
    repeat match goal with
      | |- context [dict_get ?k (participants r)] =>
          destruct (dict_get k (participants r)) eqn:?
      | |- context [if ?b then _ else _] => destruct b eqn:?
      end;
    cbn [video_recording_enabled recording_start_time set_participants
         set_next_obj set_gestures set_start_time set_is_active
         set_video_recording_enabled set_recording_start_time];
    trivial; try discriminate; intros _; eauto.
Qed.

(** X20.  In every reachable room in which recording is on, the time at
    which it was started is set, and the transcript is not empty; the
    time is that of the last start, which a stop keeps. *)
Theorem recording_on_has_start (r : Room) :
  reachable r ->
  (video_recording_enabled r = true ->
   (exists t, recording_start_time r = Some t) /\ session_transcript r <> [])
  /\ (forall now,
        recording_start_time (step r (now, ToggleRecording))
        = if video_recording_enabled r then recording_start_time r else Some now).
Proof.
  intros Hr. split.
  - intros Hon. split.
    + revert Hon. change (recording_started r).
      induction Hr as [id nm|r now c _ IH]; [discriminate|].
      apply (written_recording_started now c) in IH.
      unfold recording_started in *.
      destruct (step_recording_start_time r now c) as [-> ->]. exact IH.
    + intros Ht. apply (reachable_untouched r Hr) in Ht.
      rewrite Ht in Hon. discriminate.
  - intros now.
    rewrite (proj1 (step_recording_start_time r now ToggleRecording)).
    cbn [written]. now destruct (video_recording_enabled r).
Qed.

Lemma recording_on_has_start_witness :
  exists t,
    recording_start_time (step (init "vr" "Room") (7%nat, ToggleRecording))
    = Some t.
Proof.
  apply (proj1 (recording_on_has_start
                  (step (init "vr" "Room") (7%nat, ToggleRecording))
                  (reachable_step _ 7%nat ToggleRecording
                     (reachable_init "vr" "Room")))).
  vm_compute. reflexivity.
Defined.
